(** * Support-ticket assistant: ticket loading, indexing and retrieval-augmented answers

    A shallow embedding of the four Python modules of the backend
    ([data_loader], [embeddings], [chroma_index], [rag_query]) and the
    properties of their error handling, filtering and prompt assembly.

    Conventions of the embedding.
    - A Python [str] is the list of its code points ([list N]); [len] is
      [length], [s[:n]] is [take n s], concatenation is [++].
    - A Python [float] is an IEEE-754 binary64 value, [spec_float] with
      precision 53 and maximal exponent 1024.
    - A call that may raise returns [res A]; the exceptions are instances of
      Python's [Exception], the only ones the [except Exception] clauses of
      the sources catch.
    - The ticket file, the embedding model, the vector index and the
      generative model are outside the sources.  What they answer is read
      from a [world]; what the program keeps between calls (the persistent
      collection, the cached model) is a [state]; a computation [M A] takes
      a state to a result, the state it leaves and the calls it has made to
      the collaborators, in order.
    - Calls to [logger] write to the process log and influence no value; they
      are left out, except where the evaluation of their argument can raise
      (the handler inside the loop of [index_all_tickets]). *)

From Stdlib Require Import ZArith NArith List Bool Lia Ascii String DecimalString SpecFloat.
From stdpp Require Import base option list gmap.

(** ** Python strings *)

Abbreviation pystr := (list N) (only parsing).

(** A literal of the source text (all literals of the sources are ASCII). *)
Definition lit (s : string) : pystr := List.map N_of_ascii (list_ascii_of_string s).
Arguments lit s%_string : simpl never.

Definition nl : pystr := [10%N].
Definition dquote : pystr := [34%N].

(** [str.isspace] on one code point: the Unicode white space of CPython. *)
Definition isspace (c : N) : bool :=
  (((9 <=? c) && (c <=? 13)) || ((28 <=? c) && (c <=? 32))
   || (c =? 133) || (c =? 160) || (c =? 5760)
   || ((8192 <=? c) && (c <=? 8202))
   || (c =? 8232) || (c =? 8233) || (c =? 8239) || (c =? 8287) || (c =? 12288))%N.

Fixpoint lstrip (s : pystr) : pystr :=
  match s with
  | c :: s' => if isspace c then lstrip s' else s
  | [] => []
  end.

Definition rstrip (s : pystr) : pystr := rev (lstrip (rev s)).

(** [s.strip()] *)
Definition strip (s : pystr) : pystr := rstrip (lstrip s).

(** [not x] for a sequence [x]: the empty sequence is falsy. *)
Definition is_empty {A} (l : list A) : bool :=
  match l with [] => true | _ => false end.

(** [str(z)] for an [int]. *)
Definition str_of_Z (z : Z) : pystr := lit (NilZero.string_of_int (Z.to_int z)).

(** [all_tickets[:m]]: a negative bound counts from the end. *)
Definition slice_to {A} (m : Z) (l : list A) : list A :=
  if (m <? 0)%Z then take (Z.to_nat (Z.of_nat (length l) + m)) l
  else take (Z.to_nat m) l.

(** [enumerate(l)] *)
Definition enumerate {A} (l : list A) : list (nat * A) := combine (seq 0 (length l)) l.

(** ** Exceptions and results *)

Inductive exn_class :=
| FileNotFoundError
| ValueError
| JSONDecodeError          (* json.JSONDecodeError, a subclass of ValueError *)
| AttributeError
| OtherError (name : string).

Inductive exn := Exn (cls : exn_class) (text : pystr).

Definition exn_cls (e : exn) : exn_class := let 'Exn c _ := e in c.

(** [str(e)] *)
Definition exn_str (e : exn) : pystr := let 'Exn _ t := e in t.

(** [isinstance(e, ValueError)] *)
Definition is_ValueError (e : exn) : bool :=
  match exn_cls e with ValueError | JSONDecodeError => true | _ => false end.

(** [isinstance(e, json.JSONDecodeError)] *)
Definition is_JSONDecodeError (e : exn) : bool :=
  match exn_cls e with JSONDecodeError => true | _ => false end.

Inductive res (A : Type) :=
| Ok (a : A)
| Raise (e : exn).
Arguments Ok {A} a.
Arguments Raise {A} e.

(** ** JSON values as the program observes them *)

(** The value of a ticket field or of a metadata entry.  The sources look at
    such a value in two ways only: its truth value ([not v]) and its text
    ([str(v)], also what an f-string inserts).  [VOther] stands for every
    value that is not [None], a [bool], an [int] or a [str] (a float, a
    list, a nested object), given by these two observations. *)
Inductive value :=
| VNone
| VBool (b : bool)
| VInt (z : Z)
| VStr (s : pystr)
| VOther (truth : bool) (text : pystr).

Definition truthy (v : value) : bool :=
  match v with
  | VNone => false
  | VBool b => b
  | VInt z => negb (z =? 0)%Z
  | VStr s => negb (is_empty s)
  | VOther t _ => t
  end.

Definition py_str (v : value) : pystr :=
  match v with
  | VNone => lit "None"
  | VBool true => lit "True"
  | VBool false => lit "False"
  | VInt z => str_of_Z z
  | VStr s => s
  | VOther _ t => t
  end.

(** A [dict] with string keys. *)
Abbreviation dict := (gmap (list N) value) (only parsing).

(** An element of the ticket list: a JSON object, or anything else, of which
    only the type name shows (in the text of an [AttributeError]). *)
Inductive item :=
| Dict (d : dict)
| NotDict (type_name : pystr).

(** [ticket.get(key, default)] *)
Definition item_get (ticket : item) (key : pystr) (default : value) : res value :=
  match ticket with
  | Dict d => Ok (match d !! key with Some v => v | None => default end)
  | NotDict ty =>
      Raise (Exn AttributeError
               (lit "'" ++ ty ++ lit "' object has no attribute 'get'"))
  end.

(** ** Floats *)

Abbreviation float := spec_float (only parsing).

Definition prec : Z := 53.
Definition emax : Z := 1024.

Definition f_zero : float := S754_zero false.                                  (* 0.0 *)
Definition f_one : float := S754_finite false 4503599627370496 (-52).          (* 1.0 *)
Definition f_hundred : float := S754_finite false 7036874417766400 (-46).      (* 100.0 *)

Definition f_sub (x y : float) : float := SFsub prec emax x y.
Definition f_mul (x y : float) : float := SFmul prec emax x y.

(** [max(a, b)] on two floats: [b] only when [b > a]. *)
Definition py_max (a b : float) : float := if SFltb a b then b else a.

(** [0.0 <= x] *)
Definition nonneg (x : float) : bool := SFleb f_zero x.

(** [str(n)] for a natural number. *)
Definition str_of_N (n : N) : pystr := lit (NilZero.string_of_uint (N.to_uint n)).

(** [num / den] rounded to the nearest integer, ties to the even one. *)
Definition round_half_even (num : N) (den : positive) : N :=
  let q := (num / Npos den)%N in
  let r := (num mod Npos den)%N in
  match (2 * r ?= Npos den)%N with
  | Lt => q
  | Gt => (q + 1)%N
  | Eq => if N.even q then q else (q + 1)%N
  end.

(** The number of tenths nearest to [m * 2^e]. *)
Definition tenths (m : positive) (e : Z) : N :=
  match e with
  | Z0 => (10 * Npos m)%N
  | Zpos p => (10 * Npos m * 2 ^ Npos p)%N
  | Zneg p => round_half_even (10 * Npos m) (2 ^ p)%positive
  end.

Definition sign_text (s : bool) : pystr := if s then lit "-" else [].

(** [f"{x:.1%}"]: [x * 100.0] in fixed notation with one digit after the
    point, then a percent sign. *)
Definition format_percent (x : float) : pystr :=
  match f_mul x f_hundred with
  | S754_zero s => sign_text s ++ lit "0.0%"
  | S754_infinity s => sign_text s ++ lit "inf%"
  | S754_nan => lit "nan%"
  | S754_finite s m e =>
      let n := tenths m e in
      sign_text s ++ str_of_N (n / 10) ++ lit "." ++ str_of_N (n mod 10) ++ lit "%"
  end.

(** ** The world outside the sources *)

(** What [json.load] gives for the ticket file. *)
Inductive json_doc :=
| JsonList (tickets : list item)
| JsonOther (type_name : pystr).

(** The ticket file as [load_all_tickets] meets it. *)
Inductive ticket_file :=
| FileMissing                     (* json_path.exists() is false *)
| FileEmpty                       (* st_size == 0 *)
| FileRaises (e : exn)            (* stat, open or json.load raises e *)
| FileJson (doc : json_doc).

(** The constants of [config.py], which is not among the sources. *)
Record config := {
  TICKETS_JSON : pystr;
  CHROMA_DB_DIR : pystr;
  COLLECTION_NAME : pystr;
  EMBEDDING_MODEL : pystr;
  CHAT_MODEL : pystr;
  GOOGLE_API_KEY : option pystr;
  DEFAULT_TOP_K : Z;
  MAX_TOP_K : Z }.

Abbreviation vector := (list spec_float) (only parsing).

(** One document of the collection, stored under its id. *)
Record entry := {
  entry_document : pystr;
  entry_metadata : dict;
  entry_embedding : vector }.

(** The collection: upsert-by-id makes it a map from ids. *)
Abbreviation collection := (gmap (list N) entry) (only parsing).

(** The four parallel lists of [collection.upsert]. *)
Record batch := {
  batch_ids : list pystr;
  batch_documents : list pystr;
  batch_metadatas : list dict;
  batch_embeddings : list vector }.

(** What [collection.query] returns: one row per query text in each column. *)
Record query_result := {
  ids : list (list pystr);
  metadatas : list (list (option dict));
  documents : list (list pystr);
  distances : list (list spec_float) }.

(** The answer of the generative model; reading [.text] may raise. *)
Record response := { response_text : res pystr }.

(** The places where a collaborator may raise without regard to its input. *)
Inductive site :=
| AtLoadModel | AtEncode
| AtMkdir | AtOpenClient | AtGetCollection | AtCreateCollection
| AtCount | AtRecount
| AtNewChatModel | AtGenerationConfig.

(** What the collaborators answer.  An answer depends on the call and on
    its arguments, not on the moment of the call. *)
Record world := {
  cfg : config;
  tickets_file : ticket_file;
  fault : site → option exn;
  (* SentenceTransformer.encode, text by text *)
  embed : pystr → vector;
  (* whether the index refuses a batch *)
  upsert_error : batch → option exn;
  (* collection.query(query_texts=[text], n_results=n, ...) *)
  knn : gmap (list N) entry → pystr → Z → res (option query_result);
  (* model.generate_content(prompt, generation_config=...) *)
  generate_content : pystr → res (option response) }.

(** ** State and the monad of effects *)

(** The calls made to the collaborators. *)
Inductive call :=
| ReadTickets
| LoadModel
| Encode (texts : list pystr)
| Mkdir
| OpenClient
| GetCollection
| CreateCollection
| Count
| Upsert (b : batch)
| Query (text : pystr) (n_results : Z)
| NewChatModel
| GenerateContent (prompt : pystr).

Record state := {
  index : option (gmap (list N) entry);   (* the named collection, once created *)
  model_cache : bool }.                    (* _model_cache is not None *)

#[global] Instance res_ret : MRet res := λ A a, Ok a.
#[global] Instance res_bind : MBind res :=
  λ A B f r, match r with Ok a => f a | Raise e => Raise e end.

(** A computation: from a state to a result, the state it leaves and the
    calls it made. *)
Definition M (A : Type) : Type := state → res A * state * list call.

Definition result {A} (o : res A * state * list call) : res A := o.1.1.
Definition final {A} (o : res A * state * list call) : state := o.1.2.
Definition trace {A} (o : res A * state * list call) : list call := o.2.

#[global] Instance M_ret : MRet M := λ A a st, (Ok a, st, []).
#[global] Instance M_bind : MBind M :=
  λ A B f m st,
    match m st with
    | (Ok a, st', t) => let '(r, st'', t') := f a st' in (r, st'', t ++ t')
    | (Raise e, st', t) => (Raise e, st', t)
    end.

Definition raise {A} (e : exn) : M A := λ st, (Raise e, st, []).

Definition lift {A} (r : res A) : M A := λ st, (r, st, []).

(** [try: body  except Exception as e: handler e] *)
Definition try_except {A} (body : M A) (handler : exn → M A) : M A :=
  λ st,
    match body st with
    | (Ok a, st', t) => (Ok a, st', t)
    | (Raise e, st', t) => let '(r, st'', t') := handler e st' in (r, st'', t ++ t')
    end.

Definition perform (c : call) : M unit := λ st, (Ok (), st, [c]).

Definition may_raise (o : option exn) : M unit :=
  match o with Some e => raise e | None => mret () end.

Definition set_index (c : gmap (list N) entry) : M unit :=
  λ st, (Ok (), {| index := Some c; model_cache := model_cache st |}, []).

Definition set_model_cache : M unit :=
  λ st, (Ok (), {| index := index st; model_cache := true |}, []).

(** The collection behind a handle. *)
Definition the_collection : M (gmap (list N) entry) :=
  λ st,
    match index st with
    | Some c => (Ok c, st, [])
    | None => (Raise (Exn ValueError (lit "Collection does not exist.")), st, [])
    end.

(** A new, empty collection under the name; the name must be free. *)
Definition new_collection : M unit :=
  λ st,
    match index st with
    | Some _ => (Raise (Exn ValueError (lit "Collection already exists.")), st, [])
    | None => set_index ∅ st
    end.

(** ** data_loader.py *)

Module data_loader.

Definition required_fields : list pystr := [lit "id"; lit "subject"; lit "body"].

(** The loop over [required_fields] of [_validate_ticket]. *)
Fixpoint check_required (ticket : dict) (fields : list pystr) : bool :=
  match fields with
  | [] => true
  | field :: rest =>
      match ticket !! field with
      | None => false
      | Some v =>
          if negb (truthy v) || is_empty (strip (py_str v)) then false
          else check_required ticket rest
      end
  end.

Definition _validate_ticket (ticket : item) (index : nat) : bool :=
  match ticket with
  | NotDict _ => false
  | Dict d =>
      if check_required d required_fields then
        match d !! lit "id" with
        | Some v =>
            let ticket_id := strip (py_str v) in
            if is_empty ticket_id then false else true
        | None => false          (* KeyError, caught by the bare except *)
        end
      else false
  end.

Section WithWorld.
Variable w : world.

(** The [try] block of [load_all_tickets]. *)
Definition load_all_tickets_try : res (list item) :=
  let json_path := TICKETS_JSON (cfg w) in
  match tickets_file w with
  | FileMissing =>
      Raise (Exn FileNotFoundError (lit "Tickets file not found: " ++ json_path))
  | FileEmpty =>
      Raise (Exn ValueError (lit "Tickets file is empty: " ++ json_path))
  | FileRaises e => Raise e
  | FileJson (JsonOther _) =>
      Raise (Exn ValueError (lit "Tickets data must be a list of ticket objects"))
  | FileJson (JsonList tickets) =>
      if is_empty tickets then Ok []
      else
        let valid_tickets :=
          fold_left
            (λ valid_tickets '(i, ticket),
               if _validate_ticket ticket i then valid_tickets ++ [ticket]
               else valid_tickets)
            (enumerate tickets) [] in
        if is_empty valid_tickets then
          Raise (Exn ValueError (lit "No valid tickets found in the data file"))
        else Ok valid_tickets
  end.

(** [load_all_tickets()]: the block under its two handlers. *)
Definition load_all_tickets : res (list item) :=
  match load_all_tickets_try with
  | Ok tickets => Ok tickets
  | Raise e =>
      if is_JSONDecodeError e then
        Raise (Exn ValueError (lit "Invalid JSON in tickets file: " ++ exn_str e))
      else Raise e
  end.

(** [get_ticket_sample(n)] *)
Definition get_ticket_sample (n : Z) : list item :=
  match load_all_tickets with
  | Ok all_tickets =>
      slice_to (Z.min n (Z.of_nat (length all_tickets))) all_tickets
  | Raise _ => []
  end.

End WithWorld.

(** What [get_ticket_stats()] returns: the statistics, or the descriptor
    [{"error": str(e)}]. *)
Inductive ticket_stats :=
| TicketStats (total_tickets : nat)
    (status_breakdown priority_breakdown : list (value * nat))
| TicketStatsError (error : pystr).

Section Stats.
Variable w : world.

(** The keys of the two histograms are field values.  Python hashes a key
    and compares it with [==]; [value] does not determine either for
    [VOther] (a list cannot be hashed, [1.0 == 1]), so both are taken as
    given: [key_error v] is what [hash(v)] raises, if it raises, and
    [key_eq] is [==] on keys. *)
Variable key_error : value → option exn.
Variable key_eq : value → value → bool.

(** [counts[key] = n] after [n = counts.get(key, 0) + 1]; the histogram is
    a dict in insertion order. *)
Fixpoint bump (counts : list (value * nat)) (key : value) : list (value * nat) :=
  match counts with
  | [] => [(key, 1)]
  | (k, n) :: rest =>
      if key_eq k key then (k, n + 1) :: rest else (k, n) :: bump rest key
  end.

(** [counts[key] = counts.get(key, 0) + 1] *)
Definition increment (counts : list (value * nat)) (key : value)
  : res (list (value * nat)) :=
  match key_error key with
  | Some e => Raise e
  | None => Ok (bump counts key)
  end.

(** The loop of [get_ticket_stats]. *)
Fixpoint count_tickets (tickets : list item)
    (status_counts priority_counts : list (value * nat))
  : res (list (value * nat) * list (value * nat)) :=
  match tickets with
  | [] => Ok (status_counts, priority_counts)
  | ticket :: rest =>
      status ← item_get ticket (lit "status") (VStr (lit "unknown"));
      priority ← item_get ticket (lit "priority") (VStr (lit "unknown"));
      status_counts ← increment status_counts status;
      priority_counts ← increment priority_counts priority;
      count_tickets rest status_counts priority_counts
  end.

(** [get_ticket_stats()] *)
Definition get_ticket_stats : ticket_stats :=
  match
    tickets ← load_all_tickets w;
    '(status_counts, priority_counts) ← count_tickets tickets [] [];
    Ok (TicketStats (length tickets) status_counts priority_counts)
  with
  | Ok stats => stats
  | Raise e => TicketStatsError (exn_str e)
  end.

End Stats.

End data_loader.

(** ** embeddings.py *)

Module embeddings.

Section WithWorld.
Variable w : world.

(** [_get_embedding_model()]: the model is constructed on the first use. *)
Definition _get_embedding_model : M unit :=
  λ st,
    if model_cache st then (Ok (), st, [])
    else
      try_except
        (perform LoadModel ;; may_raise (fault w AtLoadModel) ;; set_model_cache)
        (λ e, raise (Exn ValueError
                       (lit "Failed to load embedding model "
                        ++ EMBEDDING_MODEL (cfg w) ++ lit ": " ++ exn_str e)))
        st.

(** The loop of [get_embeddings] that gathers the texts. *)
Fixpoint gather_texts (support_tickets : list item) (texts : list pystr)
  : res (list pystr) :=
  match support_tickets with
  | [] => Ok texts
  | ticket :: rest =>
      subject ← item_get ticket (lit "subject") (VStr []);
      body ← item_get ticket (lit "body") (VStr []);
      let combined_text := strip (py_str subject ++ nl ++ nl ++ py_str body) in
      if is_empty combined_text then gather_texts rest texts
      else gather_texts rest (texts ++ [combined_text])
  end.

(** [model.encode(texts, batch_size=32, ...)] and the conversion to lists. *)
Definition encode (texts : list pystr) : M (list vector) :=
  perform (Encode texts) ;;
  may_raise (fault w AtEncode) ;;
  mret (embed w <$> texts).

(** [get_embeddings(support_tickets)] *)
Definition get_embeddings (support_tickets : list item) : M (list vector) :=
  if is_empty support_tickets then mret []
  else
    try_except
      (texts ← lift (gather_texts support_tickets []);
       if is_empty texts then mret []
       else _get_embedding_model ;; encode texts)
      (λ e, raise (Exn ValueError (lit "Failed to generate embeddings: " ++ exn_str e))).

(** [get_query_embedding(query)]; the encoder is the one of
    [get_embeddings], called on the one trimmed query. *)
Definition get_query_embedding (query : pystr) : M (list spec_float) :=
  if is_empty query || is_empty (strip query) then
    raise (Exn ValueError (lit "Query cannot be empty"))
  else
    try_except
      (_get_embedding_model ;;
       embedding ← encode [strip query];
       match embedding with
       | first :: _ => mret first
       | [] =>
           raise (Exn (OtherError "IndexError")
                    (lit "index 0 is out of bounds for axis 0 with size 0"))
       end)
      (λ e, raise (Exn ValueError
                     (lit "Failed to generate query embedding: " ++ exn_str e))).

End WithWorld.

End embeddings.

(** ** chroma_index.py *)

Module chroma_index.

(** One iteration of the loop of [index_all_tickets], inside its [try]:
    the id, the document text and the metadata of a ticket; [n_ids] is
    [len(ids)]. *)
Definition build_document (ticket : item) (n_ids : nat)
  : res (pystr * pystr * gmap (list N) value) :=
  id ← item_get ticket (lit "id") (VStr (lit "ticket_" ++ str_of_Z (Z.of_nat n_ids)));
  let ticket_id := py_str id in
  subject ← item_get ticket (lit "subject") (VStr (lit "No subject"));
  body ← item_get ticket (lit "body") (VStr (lit "No description"));
  let doc_text := py_str subject ++ nl ++ nl ++ py_str body in
  resolution ← item_get ticket (lit "resolution") (VStr (lit "No resolution provided"));
  status ← item_get ticket (lit "status") (VStr (lit "unknown"));
  priority ← item_get ticket (lit "priority") (VStr (lit "normal"));
  created_at ← item_get ticket (lit "created_at") (VStr []);
  let metadata : gmap (list N) value :=
    <[lit "ticketId" := VStr ticket_id]>
      (<[lit "ticketSubject" := subject]>
         (<[lit "ticketResolution" := resolution]>
            (<[lit "ticketStatus" := status]>
               (<[lit "ticketPriority" := priority]>
                  (<[lit "created_at" := created_at]> ∅))))) in
  Ok (ticket_id, doc_text, metadata).

(** The loop: a ticket whose construction raises is skipped, after the
    handler has formatted its log line with [ticket.get('id', 'unknown')]. *)
Fixpoint build_documents (tickets : list item)
    (ids : list pystr) (metadatas : list (gmap (list N) value)) (documents : list pystr)
  : res (list pystr * list (gmap (list N) value) * list pystr) :=
  match tickets with
  | [] => Ok (ids, metadatas, documents)
  | ticket :: rest =>
      match build_document ticket (length ids) with
      | Ok (ticket_id, doc_text, metadata) =>
          build_documents rest (ids ++ [ticket_id]) (metadatas ++ [metadata])
            (documents ++ [doc_text])
      | Raise _ =>
          item_get ticket (lit "id") (VStr (lit "unknown")) ;;
          build_documents rest ids metadatas documents
      end
  end.

(** What an accepted batch does to the collection: each id is written with
    its document, metadata and embedding, a later one over an earlier one. *)
Definition upsert_entries (b : batch) (c : gmap (list N) entry) : gmap (list N) entry :=
  fold_left
    (λ c '(id, (doc, (md, emb))),
       <[id := {| entry_document := doc; entry_metadata := md; entry_embedding := emb |}]> c)
    (zip (batch_ids b) (zip (batch_documents b) (zip (batch_metadatas b) (batch_embeddings b))))
    c.

(** What [get_collection_stats] returns: the statistics, or the descriptor
    [{"status": "error", "message": str(e)}]. *)
Inductive collection_stats :=
| CollectionStats (total_tickets : nat) (collection_name : pystr) (status : pystr)
| CollectionStatsError (status : pystr) (message : pystr).

Section WithWorld.
Variable w : world.

(** [collection.upsert(embeddings=..., ids=..., documents=..., metadatas=...)] *)
Definition upsert (b : batch) : M unit :=
  perform (Upsert b) ;;
  c ← the_collection;
  may_raise (upsert_error w b) ;;
  set_index (upsert_entries b c).

(** [collection.count()] at one of its two places. *)
Definition count (s : site) : M nat :=
  perform Count ;;
  may_raise (fault w s) ;;
  c ← the_collection;
  mret (size c).

(** [chroma_client.get_collection(name=COLLECTION_NAME)] *)
Definition get_collection : M unit :=
  perform GetCollection ;;
  may_raise (fault w AtGetCollection) ;;
  the_collection ;;
  mret ().

(** [chroma_client.create_collection(name=COLLECTION_NAME, metadata=...)] *)
Definition create_collection : M unit :=
  perform CreateCollection ;;
  may_raise (fault w AtCreateCollection) ;;
  new_collection.

(** [load_all_tickets()] as a call. *)
Definition read_tickets : M (list item) :=
  perform ReadTickets ;; lift (data_loader.load_all_tickets w).

(** The [try] block of [index_all_tickets]. *)
Definition index_all_tickets_try : M unit :=
  tickets ← read_tickets;
  if is_empty tickets then mret ()
  else
    embeddings ← embeddings.get_embeddings w tickets;
    '(ids, metadatas, documents) ← lift (build_documents tickets [] [] []);
    if is_empty ids then mret ()
    else
      upsert {| batch_ids := ids; batch_documents := documents;
                batch_metadatas := metadatas; batch_embeddings := embeddings |}.

(** [index_all_tickets(collection)] *)
Definition index_all_tickets : M unit :=
  try_except index_all_tickets_try
    (λ e, raise (Exn ValueError (lit "Failed to index tickets: " ++ exn_str e))).

(** The first steps of [create_or_get_chroma_collection]: the directory,
    the client, and the collection retrieved or, when [get_collection]
    raises a [ValueError], created. *)
Definition open_collection : M unit :=
  perform Mkdir ;;
  may_raise (fault w AtMkdir) ;;
  perform OpenClient ;;
  may_raise (fault w AtOpenClient) ;;
  try_except get_collection
    (λ e, if is_ValueError e then create_collection else raise e).

(** The [try] block of [create_or_get_chroma_collection]; the handle it
    returns is the name of the collection. *)
Definition create_or_get_chroma_collection_try : M pystr :=
  open_collection ;;
  ticket_count ← count AtCount;
  (if Nat.eqb ticket_count 0 then
     index_all_tickets ;;
     count AtRecount ;;
     mret ()
   else mret ()) ;;
  mret (COLLECTION_NAME (cfg w)).

(** [create_or_get_chroma_collection()] *)
Definition create_or_get_chroma_collection : M pystr :=
  try_except create_or_get_chroma_collection_try
    (λ e, raise (Exn ValueError
                   (lit "Failed to initialize ChromaDB collection: " ++ exn_str e))).

(** [get_collection_stats(collection)]; [collection.name] is the
    configured name, the count is read as in
    [create_or_get_chroma_collection]. *)
Definition get_collection_stats : M collection_stats :=
  try_except
    (count ← count AtCount;
     mret (CollectionStats count (COLLECTION_NAME (cfg w))
             (if (0 <? count)%nat then lit "healthy" else lit "empty")))
    (λ e, mret (CollectionStatsError (lit "error") (exn_str e))).

End WithWorld.

End chroma_index.

(** ** rag_query.py *)

Module rag_query.

(** A retrieval result: [(ticket_id, subject, snippet, resolution, score)]. *)
Record hit := {
  ticket_id : value;
  ticket_subject : value;
  snippet : pystr;
  ticket_resolution : value;
  score : float }.

(** [metadata.get(key, default)] *)
Definition metadata_get (metadata : gmap (list N) value) (key : pystr) (default : pystr)
  : value :=
  match metadata !! key with Some v => v | None => VStr default end.

(** [results[column][0][idx]]; [None] when the row or the entry is missing. *)
Definition cell {A} (column : list (list A)) (idx : nat) : option A :=
  match column !! 0%nat with
  | Some row => row !! idx
  | None => None
  end.

(** The body of the loop over the hits, inside its [try]; [None] when one
    of its steps raises (a missing row or entry, a [None] metadata). *)
Definition format_hit (results : query_result) (idx : nat) : option hit :=
  match cell (metadatas results) idx with
  | Some (Some metadata) =>
      match cell (documents results) idx with
      | Some doc =>
          match cell (distances results) idx with
          | Some distance =>
              Some {| ticket_id := metadata_get metadata (lit "ticketId") (lit "unknown");
                      ticket_subject :=
                        metadata_get metadata (lit "ticketSubject") (lit "No subject");
                      snippet := doc;
                      ticket_resolution :=
                        metadata_get metadata (lit "ticketResolution")
                          (lit "No resolution available");
                      score := py_max f_zero (f_sub f_one distance) |}
          | None => None
          end
      | None => None
      end
  | _ => None
  end.

(** The loop over [range(len(results["ids"][0]))]. *)
Definition format_hits (results : query_result) (n : nat) : list hit :=
  fold_left
    (λ formatted_results idx,
       match format_hit results idx with
       | Some h => formatted_results ++ [h]
       | None => formatted_results
       end)
    (seq 0 n) [].

(** The prompt when there is no relevant ticket. *)
Definition no_context_head : pystr :=
  lit "You are a helpful customer support assistant. The user has asked: " ++ dquote.

Definition no_context_tail : pystr :=
  dquote ++ nl ++ nl
  ++ lit "Unfortunately, I couldn't find any relevant historical support tickets to answer this question. Please provide a helpful response based on general support knowledge, and suggest that the user contact support directly for more specific assistance."
  ++ nl ++ nl ++ lit "Answer:".

Definition preamble : pystr :=
  lit "You are an expert customer support assistant with access to a comprehensive knowledge base of historical support tickets. Your role is to provide accurate, helpful, and actionable answers based on how similar issues have been resolved in the past."
  ++ nl ++ nl
  ++ lit "IMPORTANT GUIDELINES:" ++ nl
  ++ lit "- Provide a direct, helpful answer to the user's question" ++ nl
  ++ lit "- Base your response primarily on the ticket resolutions provided below" ++ nl
  ++ lit "- If the context doesn't contain enough information, supplement with general support knowledge" ++ nl
  ++ lit "- Be concise but thorough in your explanations" ++ nl
  ++ lit "- Include actionable steps when applicable" ++ nl
  ++ lit "- Do NOT mention ticket IDs, scores, or refer to " ++ dquote
  ++ lit "the context below" ++ dquote ++ nl
  ++ lit "- Write as if you're directly answering the customer" ++ nl
  ++ nl.

(** [snippet[:200]] followed by the mark of a cut. *)
Definition description (snippet : pystr) : pystr :=
  take 200 snippet ++ (if (200 <? length snippet)%nat then lit "..." else []).

(** The body of the loop of [build_rag_prompt]: five lines added to [prompt]. *)
Definition add_case (prompt : pystr) (t : hit) : pystr :=
  let prompt := prompt ++ (lit "Case: " ++ py_str (ticket_subject t) ++ nl) in
  let prompt := prompt ++ (lit "Description: " ++ description (snippet t) ++ nl) in
  let prompt := prompt ++ (lit "Resolution: " ++ py_str (ticket_resolution t) ++ nl) in
  let prompt := prompt ++ (lit "Relevance: " ++ format_percent (score t) ++ nl) in
  let prompt := prompt ++ (replicate 30 45%N ++ nl) in
  prompt.

(** [build_rag_prompt(query, relevant_tickets)] *)
Definition build_rag_prompt (query : pystr) (relevant_tickets : list hit) : pystr :=
  if is_empty relevant_tickets then no_context_head ++ query ++ no_context_tail
  else
    let prompt := preamble in
    let prompt := prompt ++ (lit "## User Question:" ++ nl ++ query ++ nl ++ nl) in
    let prompt := prompt ++ (lit "## Relevant Support Cases:" ++ nl) in
    let prompt := prompt ++ (replicate 50 61%N ++ nl) in
    let prompt := fold_left add_case relevant_tickets prompt in
    let prompt := prompt ++ (nl ++ lit "## Your Response:" ++ nl) in
    prompt.

(** The three fixed answers of [resolve_query] and its error format. *)
Definition no_tickets_answer : pystr :=
  lit "I couldn't find any relevant support tickets to answer your question. "
  ++ lit "This might be a new type of issue. Please contact our support team directly "
  ++ lit "for personalized assistance.".

Definition not_configured_answer : pystr :=
  lit "Error: AI service is not properly configured. Please contact support.".

Definition empty_response_answer : pystr :=
  lit "I apologize, but I'm having trouble generating a response right now. "
  ++ lit "Please try rephrasing your question or contact support directly.".

Definition error_answer (e : exn) : pystr :=
  lit "I encountered an error while processing your question. "
  ++ lit "Please try again or contact our support team for assistance. "
  ++ (lit "Error: " ++ exn_str e).

Section WithWorld.
Variable w : world.

(** [collection.query(query_texts=[text], n_results=k, include=[...])] *)
Definition query_collection (text : pystr) (k : Z) : M (option query_result) :=
  perform (Query text k) ;;
  c ← the_collection;
  lift (knn w c text k).

(** [query_top_k_tickets(query, k)] *)
Definition query_top_k_tickets (query : pystr) (k : Z) : M (list hit) :=
  let k := if (MAX_TOP_K (cfg w) <? k)%Z then MAX_TOP_K (cfg w) else k in
  if is_empty query || is_empty (strip query) then mret []
  else
    try_except
      (chroma_index.create_or_get_chroma_collection w ;;
       results ← query_collection (strip query) k;
       match results with
       | None => mret []
       | Some results =>
           match ids results with
           | [] => mret []
           | ids0 :: _ =>
               if is_empty ids0 then mret []
               else mret (format_hits results (length ids0))
           end
       end)
      (λ _, mret []).

(** [not GOOGLE_API_KEY] *)
Definition no_api_key : bool :=
  match GOOGLE_API_KEY (cfg w) with
  | None => true
  | Some key => is_empty key
  end.

(** The [try] block of [resolve_query]. *)
Definition resolve_query_try (query : pystr) (k : Z) : M pystr :=
  top_k_tickets ← query_top_k_tickets query k;
  if is_empty top_k_tickets then mret no_tickets_answer
  else
    let rag_prompt := build_rag_prompt query top_k_tickets in
    if no_api_key then mret not_configured_answer
    else
      perform NewChatModel ;;
      may_raise (fault w AtNewChatModel) ;;
      may_raise (fault w AtGenerationConfig) ;;
      perform (GenerateContent rag_prompt) ;;
      response ← lift (generate_content w rag_prompt);
      match response with
      | None => mret empty_response_answer
      | Some response =>
          text ← lift (response_text response);
          if is_empty text then mret empty_response_answer
          else mret (strip text)
      end.

(** [resolve_query(query, k)] *)
Definition resolve_query (query : pystr) (k : Z) : M pystr :=
  try_except (resolve_query_try query k) (λ e, mret (error_answer e)).

End WithWorld.

End rag_query.

(** ** Specification-side definitions *)

(** Only white space, which is what [not s.strip()] tests. *)
Definition blank (s : pystr) : bool := forallb isspace s.

(** The tickets that pass [_validate_ticket], in their order. *)
Definition valid_tickets_of (tickets : list item) : list item :=
  List.filter (λ t, data_loader._validate_ticket t 0) tickets.

(** Validity in the words of the specification: a mapping that contains
    [id], [subject] and [body], each non-empty after string coercion and
    trim. *)
Definition spec_valid (ticket : item) : bool :=
  match ticket with
  | NotDict _ => false
  | Dict d =>
      forallb
        (λ field, match d !! field with
                  | Some v => negb (is_empty (strip (py_str v)))
                  | None => false
                  end)
        data_loader.required_fields
  end.

(** The required fields that are present are all truthy ([not v] is false). *)
Definition required_truthy (ticket : item) : bool :=
  match ticket with
  | NotDict _ => false
  | Dict d =>
      forallb
        (λ field, match d !! field with Some v => truthy v | None => true end)
        data_loader.required_fields
  end.

(** The error of a load in which no ticket passes. *)
Definition no_valid_tickets : exn :=
  Exn ValueError (lit "No valid tickets found in the data file").

(** The calls that set the index up; they read no ticket and write none. *)
Definition setup_call (c : call) : bool :=
  match c with
  | Mkdir | OpenClient | GetCollection | CreateCollection | Count => true
  | _ => false
  end.

(** The calls to the embedding model. *)
Definition model_call (c : call) : bool :=
  match c with
  | LoadModel | Encode _ => true
  | _ => false
  end.

(** The document text of a ticket that has a subject and a body. *)
Definition doc_text_of (ticket : item) : pystr :=
  match ticket with
  | Dict d =>
      match d !! lit "subject", d !! lit "body" with
      | Some subject, Some body => py_str subject ++ nl ++ nl ++ py_str body
      | _, _ => []
      end
  | NotDict _ => []
  end.

(** The error of [index_all_tickets] around the exception that caused it. *)
Definition index_error (cause : exn) : exn :=
  Exn ValueError (lit "Failed to index tickets: " ++ exn_str cause).

(** The error of [create_or_get_chroma_collection]. *)
Definition init_error (cause : exn) : exn :=
  Exn ValueError (lit "Failed to initialize ChromaDB collection: " ++ exn_str cause).

(** The three stages of an indexing pass that can raise: the load of the
    tickets, the embeddings, the batch upsert. *)
Inductive indexing_cause (w : world) (st : state) : exn → Prop :=
| cause_load cause :
    data_loader.load_all_tickets w = Raise cause →
    indexing_cause w st cause
| cause_embeddings tickets cause :
    data_loader.load_all_tickets w = Ok tickets →
    tickets ≠ [] →
    result (embeddings.get_embeddings w tickets st) = Raise cause →
    indexing_cause w st cause
| cause_upsert tickets embeddings ids metadatas documents cause :
    data_loader.load_all_tickets w = Ok tickets →
    tickets ≠ [] →
    result (embeddings.get_embeddings w tickets st) = Ok embeddings →
    chroma_index.build_documents tickets [] [] [] = Ok (ids, metadatas, documents) →
    result (chroma_index.upsert w
              {| batch_ids := ids; batch_documents := documents;
                 batch_metadatas := metadatas; batch_embeddings := embeddings |}
              (final (embeddings.get_embeddings w tickets st))) = Raise cause →
    indexing_cause w st cause.

(** The contract of the nearest-neighbour query: never more ids than the
    [n_results] asked for. *)
Definition knn_bounded (w : world) : Prop :=
  ∀ c text n results ids0,
    knn w c text n = Ok (Some results) →
    ids results !! 0%nat = Some ids0 →
    (Z.of_nat (length ids0) ≤ n)%Z.

(** The steps of the generation stage that can raise, in their order. *)
Inductive generation_raises (w : world) (prompt : pystr) : exn → Prop :=
| raises_new_model e :
    fault w AtNewChatModel = Some e →
    generation_raises w prompt e
| raises_generation_config e :
    fault w AtNewChatModel = None →
    fault w AtGenerationConfig = Some e →
    generation_raises w prompt e
| raises_generate_content e :
    fault w AtNewChatModel = None →
    fault w AtGenerationConfig = None →
    generate_content w prompt = Raise e →
    generation_raises w prompt e
| raises_response_text response e :
    fault w AtNewChatModel = None →
    fault w AtGenerationConfig = None →
    generate_content w prompt = Ok (Some response) →
    response_text response = Raise e →
    generation_raises w prompt e.

(** [p] is a prefix of [s]. *)
Fixpoint has_prefix (p s : pystr) : bool :=
  match p, s with
  | [], _ => true
  | _ :: _, [] => false
  | a :: p', b :: s' => (a =? b)%N && has_prefix p' s'
  end.

(** [p in s]: [p] occurs in [s]. *)
Fixpoint has_infix (p s : pystr) : bool :=
  has_prefix p s || match s with [] => false | _ :: s' => has_infix p s' end.








(** The calls of an indexing pass and of the set-up of the index. *)
Definition indexing_call (c : call) : bool :=
  match c with
  | Query _ _ | NewChatModel | GenerateContent _ => false
  | _ => true
  end.

(** The error of [get_embeddings] around the exception that caused it. *)
Definition embeddings_error (cause : exn) : exn :=
  Exn ValueError (lit "Failed to generate embeddings: " ++ exn_str cause).

(** The [k] that reaches the index. *)
Definition clamp (w : world) (k : Z) : Z :=
  if (MAX_TOP_K (cfg w) <? k)%Z then MAX_TOP_K (cfg w) else k.

(** The hits read off the answer of the index. *)
Definition hits_of (answer : res (option query_result)) : list rag_query.hit :=
  match answer with
  | Ok (Some results) =>
      match ids results with
      | [] => []
      | ids0 :: _ =>
          if is_empty ids0 then [] else rag_query.format_hits results (length ids0)
      end
  | _ => []
  end.

(** The steps of the retrieval that can raise: the collection cannot be
    opened or populated, or the query itself raises. *)
Inductive retrieval_raises (w : world) (st : state) (query : pystr) (k : Z) : exn → Prop :=
| raises_collection e :
    result (chroma_index.create_or_get_chroma_collection w st) = Raise e →
    retrieval_raises w st query k e
| raises_query name c e :
    result (chroma_index.create_or_get_chroma_collection w st) = Ok name →
    index (final (chroma_index.create_or_get_chroma_collection w st)) = Some c →
    knn w c (strip query) (clamp w k) = Raise e →
    retrieval_raises w st query k e.

(** The generation stage of [resolve_query] as one result. *)
Definition generation (w : world) (prompt : pystr) : res pystr :=
  match fault w AtNewChatModel with
  | Some e => Raise e
  | None =>
      match fault w AtGenerationConfig with
      | Some e => Raise e
      | None =>
          match generate_content w prompt with
          | Raise e => Raise e
          | Ok None => Ok rag_query.empty_response_answer
          | Ok (Some response) =>
              match response_text response with
              | Raise e => Raise e
              | Ok text =>
                  if is_empty text then Ok rag_query.empty_response_answer
                  else Ok (strip text)
              end
          end
      end
  end.

(** The fixed part of the error answer. *)
Definition error_prefix : pystr :=
  lit "I encountered an error while processing your question. Please try again or contact our support team for assistance. Error: ".


(** ** Sample worlds *)

(** Modelled from the spec: [config.py] is not among the sources; the
    default and the maximal top-k are the values the specification gives
    (5 and 10), the paths and names are placeholders. *)
Definition sample_config : config := {|
  TICKETS_JSON := lit "data/support_tickets.json";
  CHROMA_DB_DIR := lit "chroma_db";
  COLLECTION_NAME := lit "support_tickets";
  EMBEDDING_MODEL := lit "all-MiniLM-L6-v2";
  CHAT_MODEL := lit "gemini";
  GOOGLE_API_KEY := Some (lit "secret");
  DEFAULT_TOP_K := 5;
  MAX_TOP_K := 10 |}.

Definition ticket_of (id subject body resolution : value) : item :=
  Dict (<[lit "id" := id]>
          (<[lit "subject" := subject]>
             (<[lit "body" := body]>
                (<[lit "resolution" := resolution]> ∅)))).

Definition ticket_reset : item :=
  ticket_of (VStr (lit "1")) (VStr (lit "Password reset"))
    (VStr (lit "User cannot log in")) (VStr (lit "Reset via email link")).

Definition ticket_billing : item :=
  ticket_of (VStr (lit "2")) (VStr (lit "Invoice missing"))
    (VStr (lit "No invoice for March")) (VStr (lit "Invoice sent again")).

Definition ticket_export : item :=
  ticket_of (VInt 3) (VStr (lit "Export fails"))
    (VStr (lit "CSV export times out")) (VStr (lit "Raised the export limit")).

(** A ticket whose id is the integer 0. *)
Definition ticket_zero : item :=
  ticket_of (VInt 0) (VStr (lit "Login loop"))
    (VStr (lit "Redirected to the login page")) (VStr (lit "Cleared the session")).

Definition quarter : float := S754_finite false 4503599627370496 (-54).   (* 0.25 *)

(** An index that answers a query with the first [n] documents of the
    collection, each at distance 0.25, and refuses [n <= 0]. *)
Definition sample_knn (c : gmap (list N) entry) (text : pystr) (n : Z)
  : res (option query_result) :=
  if (n <=? 0)%Z then
    Raise (Exn (OtherError "TypeError") (lit "Number of requested results must be positive"))
  else
    let rows := take (Z.to_nat n) (map_to_list c) in
    Ok (Some {| ids := [(λ r, r.1) <$> rows];
                metadatas := [(λ r, Some (entry_metadata r.2)) <$> rows];
                documents := [(λ r, entry_document r.2) <$> rows];
                distances := [(λ _, quarter) <$> rows] |}).

Definition sample_response : response :=
  {| response_text := Ok (lit " Use the reset link in the email. ") |}.

(** A world in which no collaborator raises. *)
Definition sample_world (file : ticket_file) : world := {|
  cfg := sample_config;
  tickets_file := file;
  fault := λ _, None;
  embed := λ text, [f_one];
  upsert_error := λ _, None;
  knn := sample_knn;
  generate_content := λ _, Ok (Some sample_response) |}.

(** The same world with one exception raised at one site. *)
Definition faulty_world (file : ticket_file) (at_site : site → bool) (e : exn) : world := {|
  cfg := sample_config;
  tickets_file := file;
  fault := λ s, if at_site s then Some e else None;
  embed := λ text, [f_one];
  upsert_error := λ _, None;
  knn := sample_knn;
  generate_content := λ _, Ok (Some sample_response) |}.

(** A process that starts with no collection and no model. *)
Definition fresh : state := {| index := None; model_cache := false |}.

Definition three_tickets : ticket_file :=
  FileJson (JsonList [ticket_reset; ticket_billing; ticket_export]).

Definition sample_query : pystr := lit "I forgot my password".

(** The client of the index cannot be opened. *)
Definition disk_failure : exn := Exn (OtherError "RuntimeError") (lit "disk failure").

Definition at_open_client (s : site) : bool :=
  match s with AtOpenClient => true | _ => false end.

(** The generative model cannot be constructed. *)
Definition quota_exceeded : exn := Exn (OtherError "RuntimeError") (lit "quota exceeded").

Definition at_new_chat_model (s : site) : bool :=
  match s with AtNewChatModel => true | _ => false end.

(** A process whose collection exists and is empty. *)
Definition empty_index : state := {| index := Some ∅; model_cache := false |}.

(** The state after a first call of [create_or_get_chroma_collection] on
    the three tickets, and the collection it has filled. *)
Definition populated : state :=
  final (chroma_index.create_or_get_chroma_collection (sample_world three_tickets) fresh).

Definition populated_collection : gmap (list N) entry :=
  match index populated with Some c => c | None => ∅ end.

(** The hits of the sample query in the sample world. *)
Definition sample_hits : list rag_query.hit :=
  match result (rag_query.query_top_k_tickets (sample_world three_tickets) sample_query 50 fresh)
  with
  | Ok hits => hits
  | Raise _ => []
  end.

(** The batch of the three tickets. *)
Definition sample_batch : batch :=
  match chroma_index.build_documents [ticket_reset; ticket_billing; ticket_export] [] [] []
  with
  | Ok (ids, metadatas, documents) =>
      {| batch_ids := ids; batch_documents := documents; batch_metadatas := metadatas;
         batch_embeddings := (λ _, [f_one]) <$> documents |}
  | Raise _ =>
      {| batch_ids := []; batch_documents := []; batch_metadatas := [];
         batch_embeddings := [] |}
  end.


(** ** Checks on concrete inputs *)

Example strip_example : strip (lit "  reset   link  ") = lit "reset   link".
Proof. reflexivity. Qed.

Example strip_blank_example : strip (9%N :: 160%N :: 8239%N :: nl) = [].
Proof. reflexivity. Qed.

Example py_str_example :
  py_str (VInt (-12)) = lit "-12" ∧ py_str VNone = lit "None" ∧ truthy (VInt 0) = false.
Proof. repeat split. Qed.

Example slice_to_example :
  slice_to 2 [1; 2; 3] = [1; 2] ∧ slice_to 7 [1; 2; 3] = [1; 2; 3]
  ∧ slice_to (-1) [1; 2; 3] = [1; 2] ∧ slice_to (-5) [1; 2; 3] = [].
Proof. repeat split. Qed.

(** 0.25, 0.12345, 0.9995, 0.00025 and 0.00075 under [.1%]. *)
Example format_percent_examples :
  format_percent quarter = lit "25.0%"
  ∧ format_percent (S754_finite false 8895509983982204 (-56)) = lit "12.3%"
  ∧ format_percent (S754_finite false 9002695655113622 (-53)) = lit "100.0%"
  ∧ format_percent (S754_finite false 4611686018427388 (-64)) = lit "0.0%"
  ∧ format_percent (S754_finite false 6917529027641082 (-63)) = lit "0.1%"
  ∧ format_percent (S754_infinity false) = lit "inf%".
Proof. repeat split; vm_compute; reflexivity. Qed.

Example score_examples :
  py_max f_zero (f_sub f_one quarter) = S754_finite false 6755399441055744 (-53)
  ∧ py_max f_zero (f_sub f_one (S754_finite false 6755399441055744 (-52))) = f_zero
  ∧ py_max f_zero (f_sub f_one S754_nan) = f_zero.
Proof. repeat split. Qed.

Example validate_examples :
  data_loader._validate_ticket ticket_reset 0 = true
  ∧ data_loader._validate_ticket ticket_zero 1 = false
  ∧ data_loader._validate_ticket (NotDict (lit "str")) 2 = false
  ∧ data_loader._validate_ticket
      (ticket_of (VStr (lit "7")) (VStr (lit "   ")) (VStr (lit "body")) VNone) 3 = false.
Proof. repeat split; vm_compute; reflexivity. Qed.

Example prompt_example :
  has_infix
    (lit "Case: Password reset" ++ nl
     ++ lit "Description: Password reset" ++ nl ++ nl ++ lit "User cannot log in" ++ nl
     ++ lit "Resolution: Reset via email link" ++ nl
     ++ lit "Relevance: 75.0%" ++ nl)
    (rag_query.build_rag_prompt sample_query sample_hits) = true.
Proof. vm_compute. reflexivity. Qed.

(** ** Facts about strings *)

Lemma is_empty_nil {A} (l : list A) : is_empty l = true ↔ l = [].
Proof. destruct l; simpl; split; congruence. Qed.

Lemma is_empty_rev {A} (l : list A) : is_empty (rev l) = is_empty l.
Proof.
  destruct l as [|a l]; [reflexivity|]. simpl.
  destruct (rev l); reflexivity.
Qed.

Lemma blank_app a b : blank (a ++ b) = blank a && blank b.
Proof. apply forallb_app. Qed.

Lemma blank_rev s : blank (rev s) = blank s.
Proof.
  induction s as [|c s IH]; [reflexivity|].
  simpl. rewrite blank_app, IH. simpl. rewrite andb_true_r. apply andb_comm.
Qed.

Lemma blank_lstrip s : blank (lstrip s) = blank s.
Proof.
  induction s as [|c s IH]; [reflexivity|].
  simpl. destruct (isspace c) eqn:Hc; simpl; [exact IH | now rewrite Hc].
Qed.

Lemma is_empty_lstrip s : is_empty (lstrip s) = blank s.
Proof.
  induction s as [|c s IH]; [reflexivity|].
  simpl. destruct (isspace c) eqn:Hc; simpl; congruence.
Qed.

(** [s.strip()] is empty exactly when [s] holds white space only. *)
Lemma is_empty_strip s : is_empty (strip s) = blank s.
Proof.
  unfold strip, rstrip.
  now rewrite is_empty_rev, is_empty_lstrip, blank_rev, blank_lstrip.
Qed.

(** ** Facts about the loader *)

Lemma valid_loop_filter tickets k acc :
  fold_left
    (λ valid_tickets '(i, ticket),
       if data_loader._validate_ticket ticket i then valid_tickets ++ [ticket]
       else valid_tickets)
    (combine (seq k (length tickets)) tickets) acc
  = acc ++ valid_tickets_of tickets.
Proof.
  revert k acc. induction tickets as [|t tickets IH]; intros k acc; simpl.
  - now rewrite app_nil_r.
  - rewrite IH. unfold valid_tickets_of. simpl.
    change (data_loader._validate_ticket t k) with (data_loader._validate_ticket t 0).
    destruct (data_loader._validate_ticket t 0); [|reflexivity].
    now rewrite <- app_assoc.
Qed.

(** What [load_all_tickets] does with a file that holds a list. *)
Lemma load_all_tickets_list w tickets :
  tickets_file w = FileJson (JsonList tickets) →
  data_loader.load_all_tickets w =
    if is_empty tickets then Ok []
    else if is_empty (valid_tickets_of tickets) then Raise no_valid_tickets
    else Ok (valid_tickets_of tickets).
Proof.
  intros Hfile. unfold data_loader.load_all_tickets, data_loader.load_all_tickets_try.
  rewrite Hfile. destruct tickets as [|t tickets]; [reflexivity|].
  change (is_empty (t :: tickets)) with false. cbv iota.
  unfold enumerate. rewrite valid_loop_filter, app_nil_l.
  destruct (valid_tickets_of (t :: tickets)); reflexivity.
Qed.

(** Whatever [load_all_tickets] returns passed the validation. *)
Lemma load_all_tickets_valid w tickets :
  data_loader.load_all_tickets w = Ok tickets →
  Forall (λ t, data_loader._validate_ticket t 0 = true) tickets.
Proof.
  destruct (tickets_file w) as [| |e|[l|ty]] eqn:Hfile.
  5: { unfold data_loader.load_all_tickets, data_loader.load_all_tickets_try.
       rewrite Hfile. discriminate. }
  4: { rewrite (load_all_tickets_list w l Hfile).
       destruct (is_empty l); [intros [= <-]; constructor|].
       destruct (is_empty (valid_tickets_of l)); [discriminate|].
       intros [= <-]. unfold valid_tickets_of.
       apply List.Forall_forall. intros t Ht. apply List.filter_In in Ht. tauto. }
  all: unfold data_loader.load_all_tickets, data_loader.load_all_tickets_try;
    rewrite Hfile; simpl; try discriminate.
  destruct (is_JSONDecodeError e); discriminate.
Qed.

Lemma check_required_forallb d fields :
  data_loader.check_required d fields =
    forallb
      (λ field, match d !! field with
                | Some v => truthy v && negb (blank (py_str v))
                | None => false
                end)
      fields.
Proof.
  induction fields as [|f fields IH]; [reflexivity|].
  simpl. destruct (d !! f) as [v|]; [|reflexivity].
  rewrite is_empty_strip, IH.
  destruct (truthy v), (blank (py_str v)); reflexivity.
Qed.

(** The position of a ticket in the list plays no part in its validation. *)
Lemma validate_ticket_index t i j :
  data_loader._validate_ticket t i = data_loader._validate_ticket t j.
Proof. reflexivity. Qed.

(** The validation in closed form: the three fields are present, truthy and
    not blank after string coercion. *)
Lemma validate_ticket_dict d i :
  data_loader._validate_ticket (Dict d) i =
    forallb
      (λ field, match d !! field with
                | Some v => truthy v && negb (blank (py_str v))
                | None => false
                end)
      data_loader.required_fields.
Proof.
  unfold data_loader._validate_ticket. rewrite check_required_forallb.
  destruct (forallb _ data_loader.required_fields) eqn:Hall; [|reflexivity].
  unfold data_loader.required_fields in Hall. simpl in Hall.
  destruct (d !! lit "id") as [v|]; [|discriminate].
  rewrite is_empty_strip.
  destruct (truthy v), (blank (py_str v)); simpl in Hall; try discriminate; reflexivity.
Qed.

(** The validation of the code is that of the specification together with
    the truth test [not ticket[field]]. *)
Lemma validate_ticket_spec t i :
  data_loader._validate_ticket t i = spec_valid t && required_truthy t.
Proof.
  destruct t as [d|ty]; [|reflexivity].
  rewrite validate_ticket_dict. unfold spec_valid, required_truthy.
  unfold data_loader.required_fields. simpl.
  repeat match goal with |- context [d !! ?k] => destruct (d !! k) as [?v|] end;
    rewrite ?is_empty_strip; simpl; rewrite ?andb_false_r; try reflexivity.
  repeat match goal with |- context [truthy ?v] => destruct (truthy v) end;
    repeat match goal with |- context [blank ?s] => destruct (blank s) end; reflexivity.
Qed.

Lemma filter_spec_valid tickets :
  Forall (λ t, spec_valid t = true → required_truthy t = true) tickets →
  valid_tickets_of tickets = List.filter spec_valid tickets.
Proof.
  unfold valid_tickets_of. induction 1 as [|t tickets Ht _ IH]; [reflexivity|].
  simpl. rewrite IH, (validate_ticket_spec t 0).
  destruct (spec_valid t); [|reflexivity]. now rewrite Ht.
Qed.

Lemma slice_to_nonneg {A} (m : Z) (l : list A) :
  (0 ≤ m)%Z → slice_to m l = take (Z.to_nat m) l.
Proof. intros Hm. unfold slice_to. destruct (Z.ltb_spec m 0); [lia | reflexivity]. Qed.

(** ** The loader: claims C2, C4 and C9 *)

(** C2, as stated, fails on the empty list: the file parses as a list, no
    ticket survives the validation, and [load_all_tickets] returns the empty
    sequence instead of failing. *)
Lemma load_empty_list_returns :
  tickets_file (sample_world (FileJson (JsonList []))) = FileJson (JsonList [])
  ∧ valid_tickets_of [] = []
  ∧ data_loader.load_all_tickets (sample_world (FileJson (JsonList []))) = Ok [].
Proof. repeat split. Qed.

(** C2, amended: when the file holds a list and no ticket of it survives
    the validation, [load_all_tickets] raises the [ValueError] "No valid
    tickets found in the data file" if the list is not empty, and returns
    the empty sequence if it is. *)
Theorem load_fails_when_no_ticket_valid w tickets :
  tickets_file w = FileJson (JsonList tickets) →
  valid_tickets_of tickets = [] →
  data_loader.load_all_tickets w =
    if is_empty tickets then Ok [] else Raise no_valid_tickets.
Proof.
  intros Hfile Hnone. rewrite (load_all_tickets_list w tickets Hfile), Hnone.
  reflexivity.
Qed.

Lemma load_fails_when_no_ticket_valid_witness :
  data_loader.load_all_tickets
    (sample_world (FileJson (JsonList [NotDict (lit "str"); Dict ∅])))
  = Raise no_valid_tickets.
Proof.
  apply (load_fails_when_no_ticket_valid
           (sample_world (FileJson (JsonList [NotDict (lit "str"); Dict ∅])))
           [NotDict (lit "str"); Dict ∅]);
    reflexivity.
Defined.

(** C4, as stated, fails on a list none of whose tickets is valid: the one
    invalid ticket is not skipped, the load is aborted with an error, where
    the claim has it return the (empty) sequence of valid tickets. *)
Lemma load_aborts_on_invalid_only :
  List.filter spec_valid [NotDict (lit "str")] = []
  ∧ data_loader.load_all_tickets (sample_world (FileJson (JsonList [NotDict (lit "str")])))
    = Raise no_valid_tickets.
Proof. split; reflexivity. Qed.

(** A ticket with the integer id 0 is non-empty after string coercion, and
    is dropped all the same by the truth test of [_validate_ticket]. *)
Lemma load_drops_zero_id :
  spec_valid ticket_zero = true
  ∧ data_loader.load_all_tickets
      (sample_world (FileJson (JsonList [ticket_zero; ticket_reset])))
    = Ok [ticket_reset].
Proof. split; vm_compute; reflexivity. Qed.

(** C4, amended: for a ticket list in which no required field holds a falsy
    value whose text is non-empty, [load_all_tickets] returns exactly the
    tickets that are mappings with [id], [subject] and [body] non-empty
    after string coercion and trim, in the order of the source, skipping the
    others; but it returns the empty sequence for the empty list and fails
    with [ValueError] when the list is non-empty and no ticket is valid. *)
Theorem load_returns_valid_subsequence w tickets :
  tickets_file w = FileJson (JsonList tickets) →
  Forall (λ t, spec_valid t = true → required_truthy t = true) tickets →
  data_loader.load_all_tickets w =
    (if is_empty tickets then Ok []
     else if is_empty (List.filter spec_valid tickets) then Raise no_valid_tickets
     else Ok (List.filter spec_valid tickets))
  ∧ sublist (List.filter spec_valid tickets) tickets.
Proof.
  intros Hfile Htruthy. split.
  - rewrite (load_all_tickets_list w tickets Hfile).
    now rewrite (filter_spec_valid tickets Htruthy).
  - clear. induction tickets as [|t tickets IH]; simpl; [constructor|].
    destruct (spec_valid t); now constructor.
Qed.

Lemma load_returns_valid_subsequence_witness :
  data_loader.load_all_tickets
    (sample_world (FileJson (JsonList [ticket_reset; NotDict (lit "int"); ticket_export])))
  = Ok [ticket_reset; ticket_export].
Proof.
  refine (proj1 (load_returns_valid_subsequence
                   (sample_world
                      (FileJson (JsonList [ticket_reset; NotDict (lit "int"); ticket_export])))
                   [ticket_reset; NotDict (lit "int"); ticket_export] eq_refl _)).
  repeat (constructor;
          [intros H; first [reflexivity | vm_compute in H; discriminate H]|]).
  constructor.
Defined.

(** C9 at a negative count: with three valid tickets, [get_ticket_sample(-1)]
    returns two tickets, where the first [min(-1, 3)] tickets are none. *)
Lemma get_ticket_sample_minus_one :
  data_loader.load_all_tickets (sample_world three_tickets)
    = Ok [ticket_reset; ticket_billing; ticket_export]
  ∧ data_loader.get_ticket_sample (sample_world three_tickets) (-1)
    = [ticket_reset; ticket_billing].
Proof. split; vm_compute; reflexivity. Qed.

(** For a count that is not negative, [get_ticket_sample(n)] returns the
    first [min(n, count)] tickets of the load, and the empty sequence when
    the load fails. *)
Lemma get_ticket_sample_nonneg w n :
  (0 ≤ n)%Z →
  data_loader.get_ticket_sample w n =
    match data_loader.load_all_tickets w with
    | Ok all_tickets => take (Z.to_nat (Z.min n (Z.of_nat (length all_tickets)))) all_tickets
    | Raise _ => []
    end.
Proof.
  intros Hn. unfold data_loader.get_ticket_sample.
  destruct (data_loader.load_all_tickets w) as [all_tickets|e]; [|reflexivity].
  apply slice_to_nonneg. lia.
Qed.

(** ** Running computations *)

(** A bind, in terms of the outcome of its first computation. *)
Lemma bind_run {A B} (m : M A) (f : A → M B) st :
  (m ≫= f) st =
    match result (m st) with
    | Ok a =>
        (result (f a (final (m st))), final (f a (final (m st))),
         trace (m st) ++ trace (f a (final (m st))))
    | Raise e => (Raise e, final (m st), trace (m st))
    end.
Proof.
  unfold mbind, M_bind, result, final, trace.
  destruct (m st) as [[[a|e] s] t]; simpl; [|reflexivity].
  destruct (f a s) as [[r s'] t']; reflexivity.
Qed.

(** A [try], in terms of the outcome of its body. *)
Lemma try_except_run {A} (body : M A) (handler : exn → M A) st :
  try_except body handler st =
    match result (body st) with
    | Ok a => (Ok a, final (body st), trace (body st))
    | Raise e =>
        (result (handler e (final (body st))), final (handler e (final (body st))),
         trace (body st) ++ trace (handler e (final (body st))))
    end.
Proof.
  unfold try_except, result, final, trace.
  destruct (body st) as [[[a|e] s] t]; simpl; [reflexivity|].
  destruct (handler e s) as [[r s'] t']; reflexivity.
Qed.

(** Unfolds the monad and the operations of the index. *)
Ltac run :=
  cbv [mbind M_bind mret M_ret perform raise lift may_raise try_except set_index
       set_model_cache the_collection new_collection result final trace
       fst snd chroma_index.count chroma_index.get_collection
       chroma_index.create_collection chroma_index.open_collection].

(** One case distinction on what the world answers. *)
Ltac step :=
  cbv beta iota zeta;
  match goal with
  | |- context [match fault ?w ?s with _ => _ end] => destruct (fault w s) eqn:?
  | |- context [match index ?st with _ => _ end] => destruct (index st) eqn:?
  | |- context [if is_ValueError ?e then _ else _] => destruct (is_ValueError e) eqn:?
  end.

Ltac run_cases := run; repeat step; cbv beta iota zeta.

(** ** Facts about the embeddings *)

Lemma get_embedding_model_run w st :
  embeddings._get_embedding_model w st =
    if model_cache st then (Ok (), st, [])
    else
      match fault w AtLoadModel with
      | Some e =>
          (Raise (Exn ValueError
                    (lit "Failed to load embedding model "
                     ++ EMBEDDING_MODEL (cfg w) ++ lit ": " ++ exn_str e)),
           st, [LoadModel])
      | None => (Ok (), {| index := index st; model_cache := true |}, [LoadModel])
      end.
Proof.
  unfold embeddings._get_embedding_model.
  destruct (model_cache st); [reflexivity|].
  run. destruct (fault w AtLoadModel); reflexivity.
Qed.

Lemma get_embeddings_run w tickets st :
  embeddings.get_embeddings w tickets st =
    if is_empty tickets then (Ok [], st, [])
    else
      match embeddings.gather_texts tickets [] with
      | Raise e => (Raise (embeddings_error e), st, [])
      | Ok texts =>
          if is_empty texts then (Ok [], st, [])
          else
            let ld := embeddings._get_embedding_model w st in
            match result ld with
            | Raise e => (Raise (embeddings_error e), final ld, trace ld)
            | Ok _ =>
                match fault w AtEncode with
                | Some e => (Raise (embeddings_error e), final ld, trace ld ++ [Encode texts])
                | None => (Ok (embed w <$> texts), final ld, trace ld ++ [Encode texts])
                end
            end
      end.
Proof.
  unfold embeddings.get_embeddings.
  destruct (is_empty tickets); [reflexivity|].
  rewrite try_except_run, bind_run. cbn [lift result final trace fst snd app].
  destruct (embeddings.gather_texts tickets []) as [texts|e]; [|reflexivity].
  destruct (is_empty texts); [reflexivity|].
  rewrite bind_run. cbv zeta.
  destruct (result (embeddings._get_embedding_model w st)) as [[]|e];
    cbn [result final trace fst snd app raise]; [|now rewrite app_nil_r].
  unfold embeddings.encode. run.
  destruct (fault w AtEncode); cbn; rewrite ?app_nil_r; reflexivity.
Qed.

(** A valid ticket is a mapping with an id, a subject and a body, the last two not blank. *)
Lemma valid_ticket_fields t i :
  data_loader._validate_ticket t i = true →
  ∃ d id subject body,
    t = Dict d
    ∧ d !! lit "id" = Some id
    ∧ d !! lit "subject" = Some subject ∧ blank (py_str subject) = false
    ∧ d !! lit "body" = Some body ∧ blank (py_str body) = false.
Proof.
  destruct t as [d|ty]; [|discriminate].
  rewrite validate_ticket_dict. unfold data_loader.required_fields. simpl.
  destruct (d !! lit "id") as [id|] eqn:Hid; [|discriminate].
  destruct (d !! lit "subject") as [subject|] eqn:Hsubject; [|now rewrite andb_false_r].
  destruct (d !! lit "body") as [body|] eqn:Hbody; [|now rewrite !andb_false_r].
  intros H. apply andb_prop in H as [_ H]. apply andb_prop in H as [Hs H].
  apply andb_prop in H as [Hb _].
  apply andb_prop in Hs as [_ Hs]. apply andb_prop in Hb as [_ Hb].
  apply negb_true_iff in Hs, Hb.
  exists d, id, subject, body. auto 10.
Qed.

(** No valid ticket is skipped when the texts are gathered. *)
Lemma gather_texts_valid tickets texts :
  Forall (λ t, data_loader._validate_ticket t 0 = true) tickets →
  embeddings.gather_texts tickets texts
  = Ok (texts ++ ((λ t, strip (doc_text_of t)) <$> tickets)).
Proof.
  intros Hvalid. revert texts.
  induction Hvalid as [|t tickets Ht _ IH]; intros texts; simpl.
  - now rewrite app_nil_r.
  - destruct (valid_ticket_fields t 0 Ht)
      as (d & id & subject & body & -> & _ & Hs & Hsb & Hb & Hbb).
    simpl. rewrite Hs, Hb. simpl. rewrite is_empty_strip, !blank_app, Hsb. simpl.
    rewrite IH, <- app_assoc. reflexivity.
Qed.

Lemma get_embeddings_trace w tickets st :
  forallb model_call (trace (embeddings.get_embeddings w tickets st)) = true.
Proof.
  rewrite get_embeddings_run, get_embedding_model_run.
  destruct (is_empty tickets); [reflexivity|].
  destruct (embeddings.gather_texts tickets []) as [texts|e]; [|reflexivity].
  destruct (is_empty texts); [reflexivity|].
  destruct (model_cache st), (fault w AtLoadModel), (fault w AtEncode); reflexivity.
Qed.

Lemma get_embeddings_index w tickets st :
  index (final (embeddings.get_embeddings w tickets st)) = index st.
Proof.
  rewrite get_embeddings_run, get_embedding_model_run.
  destruct (is_empty tickets); [reflexivity|].
  destruct (embeddings.gather_texts tickets []) as [texts|e]; [|reflexivity].
  destruct (is_empty texts); [reflexivity|].
  destruct (model_cache st), (fault w AtLoadModel), (fault w AtEncode); reflexivity.
Qed.

(** The embeddings of valid tickets: one vector per ticket, computed from
    the trimmed document text. *)
Lemma get_embeddings_valid w tickets st embeddings :
  Forall (λ t, data_loader._validate_ticket t 0 = true) tickets →
  result (embeddings.get_embeddings w tickets st) = Ok embeddings →
  embeddings = (λ t, embed w (strip (doc_text_of t))) <$> tickets.
Proof.
  intros Hvalid. rewrite get_embeddings_run, (gather_texts_valid tickets [] Hvalid).
  rewrite app_nil_l.
  destruct tickets as [|t tickets]; [intros [= <-]; reflexivity|].
  cbn [is_empty fmap list_fmap]. cbv zeta.
  destruct (result (embeddings._get_embedding_model w st)); [|discriminate].
  destruct (fault w AtEncode); [discriminate|].
  intros [= <-]. cbn [result fst]. now rewrite <- list_fmap_compose.
Qed.

(** ** Facts about the index *)

Lemma count_run w s st :
  chroma_index.count w s st =
    (match fault w s with
     | Some e => Raise e
     | None =>
         match index st with
         | Some c => Ok (size c)
         | None => Raise (Exn ValueError (lit "Collection does not exist."))
         end
     end, st, [Count]).
Proof. run. destruct (fault w s); [reflexivity|]. destruct (index st); reflexivity. Qed.

Lemma upsert_run w b st :
  chroma_index.upsert w b st =
    match index st with
    | None => (Raise (Exn ValueError (lit "Collection does not exist.")), st, [Upsert b])
    | Some c =>
        match upsert_error w b with
        | Some e => (Raise e, st, [Upsert b])
        | None =>
            (Ok (), {| index := Some (chroma_index.upsert_entries b c);
                       model_cache := model_cache st |}, [Upsert b])
        end
    end.
Proof.
  unfold chroma_index.upsert. run.
  destruct (index st); [|reflexivity]. destruct (upsert_error w b); reflexivity.
Qed.

Lemma upsert_trace w b st : trace (chroma_index.upsert w b st) = [Upsert b].
Proof.
  rewrite upsert_run. destruct (index st); [destruct (upsert_error w b)|]; reflexivity.
Qed.

Lemma open_collection_trace w st :
  forallb setup_call (trace (chroma_index.open_collection w st)) = true.
Proof. run_cases; reflexivity. Qed.

Lemma open_collection_keeps w st c :
  index st = Some c → index (final (chroma_index.open_collection w st)) = Some c.
Proof. intros Hc. run_cases; simpl; congruence. Qed.

Lemma open_collection_existing w st c :
  index st = Some c →
  fault w AtMkdir = None → fault w AtOpenClient = None → fault w AtGetCollection = None →
  chroma_index.open_collection w st = (Ok (), st, [Mkdir; OpenClient; GetCollection]).
Proof. intros Hc H1 H2 H3. run. rewrite H1, H2, H3, Hc. reflexivity. Qed.

(** The construction of the documents succeeds on valid tickets and skips none. *)
Lemma build_documents_valid tickets ids metadatas documents :
  Forall (λ t, data_loader._validate_ticket t 0 = true) tickets →
  ∃ ids' metadatas',
    chroma_index.build_documents tickets ids metadatas documents
    = Ok (ids ++ ids', metadatas ++ metadatas', documents ++ (doc_text_of <$> tickets))
    ∧ length ids' = length tickets ∧ length metadatas' = length tickets.
Proof.
  intros Hvalid. revert ids metadatas documents.
  induction Hvalid as [|t tickets Ht _ IH]; intros ids metadatas documents.
  - exists [], []. simpl. now rewrite !app_nil_r.
  - destruct (valid_ticket_fields t 0 Ht)
      as (d & id & subject & body & -> & Hid & Hs & _ & Hb & _).
    cbn [chroma_index.build_documents].
    unfold chroma_index.build_document. cbn [item_get mbind res_bind].
    rewrite Hid, Hs, Hb.
    edestruct IH as (ids' & metadatas' & -> & Hl1 & Hl2).
    eexists (_ :: ids'), (_ :: metadatas'). split; [|simpl; auto].
    rewrite <- !app_assoc. cbn [doc_text_of fmap list_fmap app]. rewrite Hs, Hb.
    reflexivity.
Qed.

Lemma index_all_tickets_try_run w st :
  chroma_index.index_all_tickets_try w st =
    match data_loader.load_all_tickets w with
    | Raise e => (Raise e, st, [ReadTickets])
    | Ok tickets =>
        if is_empty tickets then (Ok (), st, [ReadTickets])
        else
          let emb := embeddings.get_embeddings w tickets st in
          match result emb with
          | Raise e => (Raise e, final emb, ReadTickets :: trace emb)
          | Ok embeddings =>
              match chroma_index.build_documents tickets [] [] [] with
              | Raise e => (Raise e, final emb, ReadTickets :: trace emb)
              | Ok (ids, metadatas, documents) =>
                  if is_empty ids then (Ok (), final emb, ReadTickets :: trace emb)
                  else
                    let up :=
                      chroma_index.upsert w
                        {| batch_ids := ids; batch_documents := documents;
                           batch_metadatas := metadatas; batch_embeddings := embeddings |}
                        (final emb) in
                    (result up, final up, ReadTickets :: trace emb ++ trace up)
              end
          end
    end.
Proof.
  unfold chroma_index.index_all_tickets_try, chroma_index.read_tickets.
  rewrite !bind_run. cbn [perform lift result final trace fst snd app].
  destruct (data_loader.load_all_tickets w) as [tickets|e]; [|reflexivity].
  destruct (is_empty tickets); [reflexivity|].
  rewrite bind_run. cbv zeta.
  destruct (result (embeddings.get_embeddings w tickets st)) as [embs|e];
    cbn [result final trace fst snd app]; [|reflexivity].
  rewrite bind_run. cbn [lift result final trace fst snd app].
  destruct (chroma_index.build_documents tickets [] [] []) as [[[ids mds] docs]|e];
    cbn [result final trace fst snd app]; [|now rewrite app_nil_r].
  destruct (is_empty ids); cbn [result final trace fst snd app mret M_ret];
    [now rewrite app_nil_r|].
  reflexivity.
Qed.

Lemma index_all_tickets_run w st :
  chroma_index.index_all_tickets w st =
    match result (chroma_index.index_all_tickets_try w st) with
    | Ok a =>
        (Ok a, final (chroma_index.index_all_tickets_try w st),
         trace (chroma_index.index_all_tickets_try w st))
    | Raise e =>
        (Raise (index_error e), final (chroma_index.index_all_tickets_try w st),
         trace (chroma_index.index_all_tickets_try w st))
    end.
Proof.
  unfold chroma_index.index_all_tickets. rewrite try_except_run.
  destruct (result (chroma_index.index_all_tickets_try w st)); [reflexivity|].
  cbn [raise result final trace fst snd]. now rewrite app_nil_r.
Qed.

Lemma index_all_tickets_trace w st :
  trace (chroma_index.index_all_tickets w st)
  = trace (chroma_index.index_all_tickets_try w st).
Proof.
  rewrite index_all_tickets_run.
  destruct (result (chroma_index.index_all_tickets_try w st)); reflexivity.
Qed.

(** An indexing pass starts by reading the tickets. *)
Lemma index_all_tickets_reads w st :
  ∃ t, trace (chroma_index.index_all_tickets w st) = ReadTickets :: t.
Proof.
  rewrite index_all_tickets_trace, index_all_tickets_try_run.
  destruct (data_loader.load_all_tickets w) as [tickets|e]; [|eexists; reflexivity].
  destruct (is_empty tickets); [eexists; reflexivity|]. cbv zeta.
  destruct (result (embeddings.get_embeddings w tickets st)); [|eexists; reflexivity].
  destruct (chroma_index.build_documents tickets [] [] []) as [[[ids mds] docs]|e];
    [|eexists; reflexivity].
  destruct (is_empty ids); eexists; reflexivity.
Qed.

Lemma setup_not_read t : forallb setup_call t = true → ReadTickets ∉ t.
Proof.
  intros Hall Hin. rewrite forallb_forall in Hall.
  apply list_elem_of_In, Hall in Hin. discriminate.
Qed.

Lemma setup_indexing t : forallb setup_call t = true → forallb indexing_call t = true.
Proof.
  rewrite !forallb_forall. intros H c Hc. specialize (H c Hc). now destruct c.
Qed.

Lemma model_indexing t : forallb model_call t = true → forallb indexing_call t = true.
Proof.
  rewrite !forallb_forall. intros H c Hc. specialize (H c Hc). now destruct c.
Qed.

Lemma index_all_tickets_calls w st :
  forallb indexing_call (trace (chroma_index.index_all_tickets w st)) = true.
Proof.
  rewrite index_all_tickets_trace, index_all_tickets_try_run.
  destruct (data_loader.load_all_tickets w) as [tickets|e]; [|reflexivity].
  destruct (is_empty tickets); [reflexivity|]. cbv zeta.
  pose proof (model_indexing _ (get_embeddings_trace w tickets st)) as Hemb.
  destruct (result (embeddings.get_embeddings w tickets st)); [|exact Hemb].
  destruct (chroma_index.build_documents tickets [] [] []) as [[[ids mds] docs]|e];
    [|exact Hemb].
  destruct (is_empty ids); [exact Hemb|].
  cbn [trace snd forallb indexing_call andb]. now rewrite forallb_app, Hemb, upsert_trace.
Qed.

Lemma create_or_get_try_run w st :
  chroma_index.create_or_get_chroma_collection_try w st =
    let op := chroma_index.open_collection w st in
    match result op with
    | Raise e => (Raise e, final op, trace op)
    | Ok _ =>
        match result (chroma_index.count w AtCount (final op)) with
        | Raise e => (Raise e, final op, trace op ++ [Count])
        | Ok ticket_count =>
            if Nat.eqb ticket_count 0 then
              let ix := chroma_index.index_all_tickets w (final op) in
              match result ix with
              | Raise e => (Raise e, final ix, trace op ++ Count :: trace ix)
              | Ok _ =>
                  (match result (chroma_index.count w AtRecount (final ix)) with
                   | Ok _ => Ok (COLLECTION_NAME (cfg w))
                   | Raise e => Raise e
                   end, final ix, trace op ++ Count :: trace ix ++ [Count])
              end
            else (Ok (COLLECTION_NAME (cfg w)), final op, trace op ++ [Count])
        end
    end.
Proof.
  unfold chroma_index.create_or_get_chroma_collection_try.
  rewrite bind_run. cbv zeta.
  destruct (result (chroma_index.open_collection w st)) as [[]|e]; [|reflexivity].
  rewrite bind_run, count_run. cbn [result final trace fst snd].
  set (st1 := final (chroma_index.open_collection w st)).
  destruct (match fault w AtCount with Some e => _ | None => _ end) as [n|e];
    [|reflexivity].
  rewrite bind_run.
  destruct (Nat.eqb n 0).
  - rewrite bind_run.
    destruct (result (chroma_index.index_all_tickets w st1)) as [[]|e];
      cbn [result final trace fst snd]; [|reflexivity].
    rewrite bind_run, count_run. cbn [result final trace fst snd].
    destruct (match fault w AtRecount with Some e => _ | None => _ end) as [n'|e];
      cbn [result final trace fst snd mret M_ret app]; rewrite ?app_nil_r; reflexivity.
  - cbn [result final trace fst snd mret M_ret app]. rewrite ?app_nil_r. reflexivity.
Qed.

Lemma create_or_get_run w st :
  chroma_index.create_or_get_chroma_collection w st =
    let body := chroma_index.create_or_get_chroma_collection_try w st in
    (match result body with Ok name => Ok name | Raise e => Raise (init_error e) end,
     final body, trace body).
Proof.
  unfold chroma_index.create_or_get_chroma_collection. rewrite try_except_run. cbv zeta.
  destruct (result (chroma_index.create_or_get_chroma_collection_try w st));
    [reflexivity|].
  cbn [raise result final trace fst snd]. now rewrite app_nil_r.
Qed.

Lemma create_or_get_calls w st :
  forallb indexing_call (trace (chroma_index.create_or_get_chroma_collection w st)) = true.
Proof.
  rewrite create_or_get_run, create_or_get_try_run. cbv zeta.
  pose proof (setup_indexing _ (open_collection_trace w st)) as Hopen.
  destruct (result (chroma_index.open_collection w st)); [|exact Hopen].
  destruct (result (chroma_index.count w AtCount _)) as [n|e];
    [|cbn [trace snd]; now rewrite forallb_app, Hopen].
  destruct (Nat.eqb n 0); [|cbn [trace snd]; now rewrite forallb_app, Hopen].
  pose proof (index_all_tickets_calls w (final (chroma_index.open_collection w st))) as Hix.
  destruct (result (chroma_index.index_all_tickets w _));
    cbn [trace snd]; rewrite forallb_app, Hopen; cbn [forallb indexing_call andb];
    rewrite ?forallb_app, Hix; reflexivity.
Qed.

Lemma open_then_count_run w st :
  (chroma_index.open_collection w ≫= λ _, chroma_index.count w AtCount) st =
    let op := chroma_index.open_collection w st in
    match result op with
    | Raise e => (Raise e, final op, trace op)
    | Ok _ =>
        (result (chroma_index.count w AtCount (final op)), final op, trace op ++ [Count])
    end.
Proof.
  rewrite bind_run. cbv zeta.
  destruct (result (chroma_index.open_collection w st)); [|reflexivity].
  now rewrite count_run.
Qed.

(** The indexing pass runs exactly when the first count is zero. *)
Lemma create_or_get_reads_iff w st :
  ReadTickets ∈ trace (chroma_index.create_or_get_chroma_collection w st)
  ↔ result ((chroma_index.open_collection w ≫= λ _, chroma_index.count w AtCount) st)
    = Ok 0%nat.
Proof.
  rewrite create_or_get_run, open_then_count_run, create_or_get_try_run. cbv zeta.
  pose proof (setup_not_read _ (open_collection_trace w st)) as Hopen.
  destruct (result (chroma_index.open_collection w st)) as [[]|e]; cbn [result trace fst snd].
  2: { split; [tauto|discriminate]. }
  destruct (result (chroma_index.count w AtCount _)) as [n|e]; cbn [result trace fst snd].
  2: { split; [|discriminate]. intros H. apply elem_of_app in H as [H|H]; [tauto|].
       apply list_elem_of_singleton in H. discriminate. }
  destruct n as [|n]; cbn [Nat.eqb].
  - split; [reflexivity|]. intros _.
    destruct (index_all_tickets_reads w (final (chroma_index.open_collection w st)))
      as [t Ht].
    destruct (result (chroma_index.index_all_tickets w _)); cbn [trace snd];
      rewrite Ht; apply elem_of_app; right; apply elem_of_cons; right;
      apply elem_of_cons; now left.
  - cbn [trace snd]. split; [|discriminate]. intros H.
    apply elem_of_app in H as [H|H]; [tauto|].
    apply list_elem_of_singleton in H. discriminate.
Qed.

(** A collection that is not empty is left as it is, and no ticket is read. *)
Lemma create_or_get_nonempty w st c :
  index st = Some c →
  size c ≠ 0 →
  index (final (chroma_index.create_or_get_chroma_collection w st)) = Some c
  ∧ forallb setup_call (trace (chroma_index.create_or_get_chroma_collection w st)) = true
  ∧ (fault w AtMkdir = None → fault w AtOpenClient = None →
     fault w AtGetCollection = None → fault w AtCount = None →
     chroma_index.create_or_get_chroma_collection w st
     = (Ok (COLLECTION_NAME (cfg w)), st, [Mkdir; OpenClient; GetCollection; Count])).
Proof.
  intros Hc Hsize.
  rewrite create_or_get_run, create_or_get_try_run. cbv zeta.
  pose proof (open_collection_keeps w st c Hc) as Hkeep.
  pose proof (open_collection_trace w st) as Hquiet.
  assert (Hcount :
    match result (chroma_index.count w AtCount (final (chroma_index.open_collection w st)))
    with Ok n => Nat.eqb n 0 = false | Raise _ => True end).
  { rewrite count_run, Hkeep. cbn [result fst].
    destruct (fault w AtCount); [exact I|]. now apply Nat.eqb_neq. }
  repeat split.
  - destruct (result (chroma_index.open_collection w st)); [|exact Hkeep].
    destruct (result (chroma_index.count w AtCount _)); [|exact Hkeep].
    rewrite Hcount. exact Hkeep.
  - destruct (result (chroma_index.open_collection w st)); [|exact Hquiet].
    destruct (result (chroma_index.count w AtCount _));
      [rewrite Hcount|]; cbn [trace snd]; rewrite forallb_app, Hquiet; reflexivity.
  - intros H1 H2 H3 H4. clear Hcount Hkeep Hquiet.
    rewrite (open_collection_existing w st c Hc H1 H2 H3). cbn [result final trace fst snd].
    rewrite count_run, H4, Hc. cbn [result fst].
    destruct (size c) as [|n]; [contradiction|]. reflexivity.
Qed.

Lemma create_or_get_repeated w st c n :
  index st = Some c →
  size c ≠ 0 →
  index (Nat.iter n (λ s, final (chroma_index.create_or_get_chroma_collection w s)) st)
  = Some c.
Proof.
  intros Hc Hsize. induction n as [|n IH]; [exact Hc|].
  cbn [Nat.iter]. now apply create_or_get_nonempty.
Qed.

(** ** The indexing pass: claims C3 and C10 *)

(** C3, as stated, fails when the ticket file is missing: [index_all_tickets]
    raises its error, "Failed to index tickets: ...", around the
    [FileNotFoundError] of the loader, and the only call made is the read of
    the tickets; the batch upsert is never reached. *)
Lemma index_fails_without_upsert :
  chroma_index.index_all_tickets (sample_world FileMissing) empty_index
  = (Raise (index_error
              (Exn FileNotFoundError
                 (lit "Tickets file not found: data/support_tickets.json"))),
     empty_index, [ReadTickets]).
Proof. vm_compute. reflexivity. Qed.

(** C3, amended: [index_all_tickets] fails, with the [ValueError] "Failed to
    index tickets: ..." around the cause, exactly when the load of the
    tickets raises, or the generation of the embeddings raises, or the final
    batch upsert raises; the construction of the documents never fails on
    the tickets the loader returns and skips none of them, so that no
    per-ticket issue is fatal. *)
Theorem index_all_tickets_fails_iff w st e :
  (result (chroma_index.index_all_tickets w st) = Raise e
   ↔ ∃ cause, e = index_error cause ∧ indexing_cause w st cause)
  ∧ (∀ tickets,
       data_loader.load_all_tickets w = Ok tickets →
       ∃ ids metadatas documents,
         chroma_index.build_documents tickets [] [] [] = Ok (ids, metadatas, documents)
         ∧ length ids = length tickets ∧ length documents = length tickets).
Proof.
  split.
  - rewrite index_all_tickets_run.
    assert (Hstep :
      ∀ cause, result (chroma_index.index_all_tickets_try w st) = Raise cause
               ↔ indexing_cause w st cause).
    { intros cause. rewrite index_all_tickets_try_run. split.
      - destruct (data_loader.load_all_tickets w) as [tickets|e0] eqn:Hload.
        2: { intros [= ->]. now apply cause_load. }
        pose proof (load_all_tickets_valid w tickets Hload) as Hvalid.
        destruct (is_empty tickets) eqn:Hempty; [discriminate|].
        assert (tickets ≠ []) by (intros ->; discriminate).
        cbv zeta.
        destruct (result (embeddings.get_embeddings w tickets st)) as [embs|e0] eqn:Hemb.
        2: { intros [= ->]. now apply (cause_embeddings w st tickets). }
        destruct (chroma_index.build_documents tickets [] [] [])
          as [[[ids mds] docs]|e0] eqn:Hbuild.
        2: { destruct (build_documents_valid tickets [] [] [] Hvalid)
               as (? & ? & Hok & _). congruence. }
        destruct (is_empty ids); [discriminate|]. cbn [result fst].
        intros Hup. now apply (cause_upsert w st tickets embs ids mds docs).
      - intros [cause' Hload|tickets cause' Hload Hne Hemb
                |tickets embs ids mds docs cause' Hload Hne Hemb Hbuild Hup].
        + now rewrite Hload.
        + rewrite Hload. destruct tickets; [contradiction|].
          cbn [is_empty]. cbv zeta. now rewrite Hemb.
        + rewrite Hload.
          pose proof (load_all_tickets_valid w tickets Hload) as Hvalid.
          destruct (build_documents_valid tickets [] [] [] Hvalid)
            as (ids' & mds' & Hok & Hlen & _).
          rewrite Hbuild in Hok. injection Hok as -> -> ->.
          destruct tickets as [|t tickets]; [contradiction|].
          cbn [is_empty]. cbv zeta. rewrite Hemb, Hbuild.
          destruct ids'; [discriminate|]. cbn [is_empty app]. exact Hup. }
    destruct (result (chroma_index.index_all_tickets_try w st)) as [[]|cause] eqn:Htry.
    + split; [discriminate|]. intros (cause & _ & Hc). apply Hstep in Hc. discriminate.
    + cbn [result fst]. split.
      * intros [= <-]. exists cause. split; [reflexivity|]. now apply Hstep.
      * intros (cause' & -> & Hc). apply Hstep in Hc. congruence.
  - intros tickets Hload.
    pose proof (load_all_tickets_valid w tickets Hload) as Hvalid.
    destruct (build_documents_valid tickets [] [] [] Hvalid) as (ids & mds & Hok & Hl & _).
    exists ids, mds, (doc_text_of <$> tickets). rewrite length_fmap. auto.
Qed.

Lemma index_all_tickets_fails_iff_witness :
  result (chroma_index.index_all_tickets (sample_world FileMissing) empty_index)
  = Raise (index_error
             (Exn FileNotFoundError
                (lit "Tickets file not found: data/support_tickets.json"))).
Proof.
  apply (proj1 (index_all_tickets_fails_iff (sample_world FileMissing) empty_index _)).
  eexists. split; [reflexivity|]. apply cause_load. reflexivity.
Defined.

(** C10: whenever [index_all_tickets] reaches its batch upsert, the four
    lists it passes have the same length, the loader returned as many
    tickets (none was skipped), and each embedding is the vector of the
    trimmed text of the document at the same position. *)
Theorem upsert_batch_aligned w st b :
  Upsert b ∈ trace (chroma_index.index_all_tickets w st) →
  length (batch_ids b) = length (batch_documents b)
  ∧ length (batch_metadatas b) = length (batch_documents b)
  ∧ length (batch_embeddings b) = length (batch_documents b)
  ∧ batch_embeddings b = (λ doc, embed w (strip doc)) <$> batch_documents b
  ∧ ∃ tickets,
      data_loader.load_all_tickets w = Ok tickets
      ∧ length tickets = length (batch_documents b).
Proof.
  rewrite index_all_tickets_trace, index_all_tickets_try_run.
  destruct (data_loader.load_all_tickets w) as [tickets|e] eqn:Hload.
  2: { intros H. apply list_elem_of_singleton in H. discriminate. }
  pose proof (load_all_tickets_valid w tickets Hload) as Hvalid.
  destruct (is_empty tickets).
  { intros H. apply list_elem_of_singleton in H. discriminate. }
  cbv zeta.
  pose proof (get_embeddings_trace w tickets st) as Hquiet.
  assert (Hno : Upsert b ∉ trace (embeddings.get_embeddings w tickets st)).
  { intros Hin. rewrite forallb_forall in Hquiet.
    apply list_elem_of_In, Hquiet in Hin. discriminate. }
  destruct (result (embeddings.get_embeddings w tickets st)) as [embs|e] eqn:Hemb.
  2: { cbn [trace snd]. intros H. apply elem_of_cons in H as [H|H]; [discriminate|tauto]. }
  destruct (build_documents_valid tickets [] [] [] Hvalid)
    as (ids & mds & Hbuild & Hids & Hmds).
  rewrite Hbuild. cbn [app].
  destruct (is_empty ids).
  { cbn [trace snd]. intros H. apply elem_of_cons in H as [H|H]; [discriminate|tauto]. }
  cbn [trace snd]. rewrite upsert_run.
  intros H. apply elem_of_cons in H as [H|H]; [discriminate|].
  apply elem_of_app in H as [H|H]; [tauto|].
  assert (Hb : b = {| batch_ids := ids; batch_documents := doc_text_of <$> tickets;
                      batch_metadatas := mds; batch_embeddings := embs |}).
  { destruct (index _); [destruct (upsert_error _ _)|];
      cbn [snd] in H; apply list_elem_of_singleton in H; congruence. }
  subst b. cbn [batch_ids batch_documents batch_metadatas batch_embeddings].
  rewrite (get_embeddings_valid w tickets st embs Hvalid Hemb).
  rewrite !length_fmap, <- list_fmap_compose.
  repeat split; try congruence. exists tickets. auto.
Qed.

Lemma upsert_batch_aligned_witness :
  Upsert sample_batch
    ∈ trace (chroma_index.index_all_tickets (sample_world three_tickets) empty_index)
  ∧ length (batch_ids sample_batch) = 3
  ∧ length (batch_embeddings sample_batch) = length (batch_documents sample_batch).
Proof.
  assert (H : Upsert sample_batch
                ∈ trace (chroma_index.index_all_tickets
                           (sample_world three_tickets) empty_index)).
  { vm_compute. repeat constructor. }
  split; [exact H|]. split; [reflexivity|].
  exact (proj1 (proj2 (proj2
    (upsert_batch_aligned (sample_world three_tickets) empty_index sample_batch H)))).
Defined.

(** ** The collection: claim C8 *)

(** C8: [create_or_get_chroma_collection] runs an indexing pass (it reads
    the tickets) exactly when the collection it has retrieved or created
    counts zero documents.  When the collection of the state is not empty,
    a call leaves it as it is and makes set-up calls only, so does any
    number of repeated calls, and when no collaborator raises the call
    returns the handle after [get_collection] and one [count]. *)
Theorem create_or_get_indexes_iff_empty w st :
  (ReadTickets ∈ trace (chroma_index.create_or_get_chroma_collection w st)
   ↔ result ((chroma_index.open_collection w ≫= λ _, chroma_index.count w AtCount) st)
     = Ok 0%nat)
  ∧ (∀ c,
       index st = Some c →
       size c ≠ 0 →
       index (final (chroma_index.create_or_get_chroma_collection w st)) = Some c
       ∧ forallb setup_call (trace (chroma_index.create_or_get_chroma_collection w st))
         = true
       ∧ (∀ n,
            index (Nat.iter n
                     (λ s, final (chroma_index.create_or_get_chroma_collection w s)) st)
            = Some c)
       ∧ (fault w AtMkdir = None → fault w AtOpenClient = None →
          fault w AtGetCollection = None → fault w AtCount = None →
          chroma_index.create_or_get_chroma_collection w st
          = (Ok (COLLECTION_NAME (cfg w)), st,
             [Mkdir; OpenClient; GetCollection; Count]))).
Proof.
  split; [apply create_or_get_reads_iff|].
  intros c Hc Hsize.
  destruct (create_or_get_nonempty w st c Hc Hsize) as (Hkeep & Hquiet & Hret).
  repeat split; try assumption.
  intros n. now apply create_or_get_repeated.
Qed.

Lemma create_or_get_indexes_iff_empty_witness :
  ReadTickets
    ∈ trace (chroma_index.create_or_get_chroma_collection (sample_world three_tickets) fresh)
  ∧ size populated_collection = 3
  ∧ chroma_index.create_or_get_chroma_collection (sample_world three_tickets) populated
    = (Ok (lit "support_tickets"), populated, [Mkdir; OpenClient; GetCollection; Count]).
Proof.
  split.
  - apply (proj1 (create_or_get_indexes_iff_empty (sample_world three_tickets) fresh)).
    vm_compute. reflexivity.
  - split; [vm_compute; reflexivity|].
    apply (proj2 (create_or_get_indexes_iff_empty (sample_world three_tickets) populated)
             populated_collection).
    + vm_compute. reflexivity.
    + vm_compute. discriminate.
    + reflexivity.
    + reflexivity.
    + reflexivity.
    + reflexivity.
Defined.

(** ** Facts about the retrieval *)

Lemma query_top_k_tickets_run w query k st :
  rag_query.query_top_k_tickets w query k st =
    if is_empty query || is_empty (strip query) then (Ok [], st, [])
    else
      let cg := chroma_index.create_or_get_chroma_collection w st in
      match result cg with
      | Raise _ => (Ok [], final cg, trace cg)
      | Ok _ =>
          (Ok (match index (final cg) with
               | Some c => hits_of (knn w c (strip query) (clamp w k))
               | None => []
               end),
           final cg, trace cg ++ [Query (strip query) (clamp w k)])
      end.
Proof.
  unfold rag_query.query_top_k_tickets. fold (clamp w k).
  destruct (is_empty query || is_empty (strip query)); [reflexivity|].
  rewrite try_except_run, bind_run. cbv zeta.
  destruct (result (chroma_index.create_or_get_chroma_collection w st)) as [name|e];
    cbn [result final trace fst snd mret M_ret]; [|now rewrite app_nil_r].
  set (st1 := final (chroma_index.create_or_get_chroma_collection w st)).
  rewrite bind_run. unfold rag_query.query_collection. run.
  destruct (index st1) as [c|]; [|now rewrite ?app_nil_r].
  destruct (knn w c (strip query) (clamp w k)) as [[results|]|e];
    cbv beta iota; rewrite ?app_nil_r; try reflexivity.
  unfold hits_of. destruct (ids results) as [|ids0 rows]; [now rewrite ?app_nil_r|].
  destruct (is_empty ids0); now rewrite ?app_nil_r.
Qed.

(** The retrieval returns a list, whatever happens. *)
Lemma query_top_k_never_raises w query k st :
  ∃ hits, result (rag_query.query_top_k_tickets w query k st) = Ok hits.
Proof.
  rewrite query_top_k_tickets_run.
  destruct (is_empty query || is_empty (strip query)); [eexists; reflexivity|].
  cbv zeta. destruct (result (chroma_index.create_or_get_chroma_collection w st));
    eexists; reflexivity.
Qed.

Lemma format_hits_acc results l acc :
  fold_left
    (λ formatted_results idx,
       match rag_query.format_hit results idx with
       | Some h => formatted_results ++ [h]
       | None => formatted_results
       end) l acc
  = acc ++ omap (rag_query.format_hit results) l.
Proof.
  revert acc. induction l as [|idx l IH]; intros acc; simpl; [now rewrite app_nil_r|].
  rewrite IH. destruct (rag_query.format_hit results idx); [|reflexivity].
  now rewrite <- app_assoc.
Qed.

(** The hits are the rows that could be formatted, in their order. *)
Lemma format_hits_omap results n :
  rag_query.format_hits results n = omap (rag_query.format_hit results) (seq 0 n).
Proof. unfold rag_query.format_hits. now rewrite format_hits_acc. Qed.

Lemma omap_length {A B} (f : A → option B) l : length (omap f l) ≤ length l.
Proof. induction l as [|a l IH]; csimpl; [lia|]. destruct (f a); csimpl; lia. Qed.

Lemma format_hits_length results n : length (rag_query.format_hits results n) ≤ n.
Proof.
  rewrite format_hits_omap. etransitivity; [apply omap_length|]. now rewrite length_seq.
Qed.

Lemma hits_of_length w c text n :
  knn_bounded w → length (hits_of (knn w c text n)) ≤ Z.to_nat n.
Proof.
  intros Hknn. unfold hits_of.
  destruct (knn w c text n) as [[results|]|e] eqn:Hq; simpl; try lia.
  destruct (ids results) as [|ids0 rows] eqn:Hids; simpl; [lia|].
  destruct (is_empty ids0); simpl; [lia|].
  pose proof (Hknn c text n results ids0 Hq) as Hle. rewrite Hids in Hle.
  specialize (Hle eq_refl). pose proof (format_hits_length results (length ids0)). lia.
Qed.

(** [max(0.0, x)] is never negative, also when [x] is not a number. *)
Lemma py_max_nonneg x : nonneg (py_max f_zero x) = true.
Proof.
  unfold nonneg, py_max. destruct (SFltb f_zero x) eqn:Hlt; [|reflexivity].
  unfold SFltb in Hlt. unfold SFleb.
  destruct (SFcompare f_zero x) as [[]|]; congruence.
Qed.

Lemma format_hit_score results idx h :
  rag_query.format_hit results idx = Some h →
  ∃ distance,
    rag_query.cell (distances results) idx = Some distance
    ∧ rag_query.cell (documents results) idx = Some (rag_query.snippet h)
    ∧ rag_query.score h = py_max f_zero (f_sub f_one distance).
Proof.
  unfold rag_query.format_hit.
  destruct (rag_query.cell (metadatas results) idx) as [[metadata|]|]; try discriminate.
  destruct (rag_query.cell (documents results) idx) as [doc|]; [|discriminate].
  destruct (rag_query.cell (distances results) idx) as [distance|]; [|discriminate].
  intros [= <-]. exists distance. auto.
Qed.

Lemma format_hits_elem results n h :
  h ∈ rag_query.format_hits results n →
  ∃ idx, idx < n ∧ rag_query.format_hit results idx = Some h.
Proof.
  rewrite format_hits_omap. intros Hin. apply list_elem_of_omap in Hin as (idx & Hidx & Hh).
  exists idx. split; [|exact Hh]. apply elem_of_seq in Hidx. lia.
Qed.

Lemma sample_knn_bounded file : knn_bounded (sample_world file).
Proof.
  intros c text n results ids0. cbn [knn sample_world]. unfold sample_knn.
  destruct (Z.leb_spec n 0) as [Hn|Hn]; [discriminate|].
  intros [= <-]. cbn [ids]. intros [= <-].
  rewrite length_fmap, length_take. lia.
Qed.

(** ** The retrieval: claims C5 and C6 *)

(** C5: when the index keeps its contract (never more ids than the
    [n_results] asked for) and [k] exceeds the configured maximum,
    [query_top_k_tickets(query, k)] returns a list of at most that maximum
    of tuples, and every query it sends to the index asks for exactly the
    maximum. *)
Theorem query_top_k_capped w st query k :
  knn_bounded w →
  (MAX_TOP_K (cfg w) < k)%Z →
  ∃ hits,
    result (rag_query.query_top_k_tickets w query k st) = Ok hits
    ∧ length hits ≤ Z.to_nat (MAX_TOP_K (cfg w))
    ∧ ∀ text n,
        Query text n ∈ trace (rag_query.query_top_k_tickets w query k st) →
        n = MAX_TOP_K (cfg w).
Proof.
  intros Hknn Hk. rewrite query_top_k_tickets_run.
  assert (Hclamp : clamp w k = MAX_TOP_K (cfg w)).
  { unfold clamp. destruct (Z.ltb_spec (MAX_TOP_K (cfg w)) k); [reflexivity|lia]. }
  rewrite Hclamp.
  destruct (is_empty query || is_empty (strip query)).
  { exists []. cbn. repeat split; [lia|]. intros text n H. inversion H. }
  cbv zeta.
  pose proof (create_or_get_run w st) as Hrun. cbv zeta in Hrun.
  assert (Hsetup : ∀ text n,
            Query text n ∉ trace (chroma_index.create_or_get_chroma_collection w st)).
  { intros text n Hin. pose proof (create_or_get_calls w st) as Hall.
    rewrite forallb_forall in Hall. apply list_elem_of_In, Hall in Hin. discriminate. }
  destruct (result (chroma_index.create_or_get_chroma_collection w st)).
  - eexists. cbn [result trace fst snd]. repeat split.
    + destruct (index _); [now apply hits_of_length|simpl; lia].
    + intros text n H. apply elem_of_app in H as [H|H]; [now apply Hsetup in H|].
      apply list_elem_of_singleton in H. congruence.
  - exists []. cbn [result trace fst snd]. repeat split; [simpl; lia|].
    intros text n H. now apply Hsetup in H.
Qed.

Lemma query_top_k_capped_witness :
  ∃ hits,
    result (rag_query.query_top_k_tickets (sample_world three_tickets) sample_query 50 fresh)
    = Ok hits
    ∧ length hits ≤ 10.
Proof.
  destruct (query_top_k_capped (sample_world three_tickets) fresh sample_query 50
              (sample_knn_bounded three_tickets) eq_refl)
    as (hits & Hhits & Hlen & _).
  exists hits. split; [exact Hhits | exact Hlen].
Defined.

(** C6: the score of every hit that [query_top_k_tickets] returns is
    [max(0.0, 1.0 - distance)] for the distance the index reported in the
    row of that hit, and it is not negative. *)
Theorem hit_score_from_distance w st query k hits h :
  result (rag_query.query_top_k_tickets w query k st) = Ok hits →
  h ∈ hits →
  nonneg (rag_query.score h) = true
  ∧ ∃ c text n results idx distance,
      Query text n ∈ trace (rag_query.query_top_k_tickets w query k st)
      ∧ knn w c text n = Ok (Some results)
      ∧ rag_query.cell (distances results) idx = Some distance
      ∧ rag_query.cell (documents results) idx = Some (rag_query.snippet h)
      ∧ rag_query.score h = py_max f_zero (f_sub f_one distance).
Proof.
  rewrite query_top_k_tickets_run.
  destruct (is_empty query || is_empty (strip query)).
  { intros [= <-] Hin. inversion Hin. }
  cbv zeta.
  destruct (result (chroma_index.create_or_get_chroma_collection w st)).
  2: { intros [= <-] Hin. inversion Hin. }
  cbn [result trace fst snd]. intros [= <-].
  destruct (index _) as [c|]; [|intros Hin; inversion Hin].
  unfold hits_of.
  destruct (knn w c (strip query) (clamp w k)) as [[results|]|e] eqn:Hq;
    try (intros Hin; inversion Hin; fail).
  destruct (ids results) as [|ids0 rows]; [intros Hin; inversion Hin|].
  destruct (is_empty ids0); [intros Hin; inversion Hin|].
  intros Hin. apply format_hits_elem in Hin as (idx & _ & Hh).
  apply format_hit_score in Hh as (distance & Hd & Hdoc & Hscore).
  split; [rewrite Hscore; apply py_max_nonneg|].
  exists c, (strip query), (clamp w k), results, idx, distance.
  repeat split; try assumption.
  apply elem_of_app. right. apply list_elem_of_singleton. reflexivity.
Qed.

Lemma hit_score_from_distance_witness :
  length sample_hits = 3
  ∧ Forall (λ h, nonneg (rag_query.score h) = true) sample_hits.
Proof.
  split; [vm_compute; reflexivity|].
  apply Forall_forall. intros h Hh.
  apply (hit_score_from_distance (sample_world three_tickets) fresh sample_query 50
           sample_hits h); [vm_compute; reflexivity | exact Hh].
Defined.

(** ** The answer: claim C1 *)

Lemma resolve_query_try_result w query k st :
  result (rag_query.resolve_query_try w query k st) =
    match result (rag_query.query_top_k_tickets w query k st) with
    | Raise e => Raise e
    | Ok hits =>
        if is_empty hits then Ok rag_query.no_tickets_answer
        else if rag_query.no_api_key w then Ok rag_query.not_configured_answer
        else generation w (rag_query.build_rag_prompt query hits)
    end.
Proof.
  unfold rag_query.resolve_query_try. rewrite bind_run.
  destruct (result (rag_query.query_top_k_tickets w query k st)) as [hits|e];
    [|reflexivity].
  destruct (is_empty hits); [reflexivity|].
  destruct (rag_query.no_api_key w); [reflexivity|].
  unfold generation. run.
  destruct (fault w AtNewChatModel); [reflexivity|].
  destruct (fault w AtGenerationConfig); [reflexivity|].
  destruct (generate_content w _) as [[response|]|e]; try reflexivity.
  destruct (response_text response) as [text|e]; [|reflexivity].
  destruct (is_empty text); reflexivity.
Qed.

Lemma resolve_query_result w query k st :
  result (rag_query.resolve_query w query k st) =
    Ok (match result (rag_query.resolve_query_try w query k st) with
        | Ok answer => answer
        | Raise e => rag_query.error_answer e
        end).
Proof.
  unfold rag_query.resolve_query. rewrite try_except_run.
  destruct (result (rag_query.resolve_query_try w query k st)); reflexivity.
Qed.

Lemma generation_raises_iff w prompt e :
  generation w prompt = Raise e ↔ generation_raises w prompt e.
Proof.
  unfold generation. split.
  - destruct (fault w AtNewChatModel) eqn:H1; [intros [= ->]; now constructor|].
    destruct (fault w AtGenerationConfig) eqn:H2;
      [intros [= ->]; now apply raises_generation_config|].
    destruct (generate_content w prompt) as [[response|]|e0] eqn:H3;
      [| discriminate | intros [= ->]; now apply raises_generate_content].
    destruct (response_text response) as [text|e0] eqn:H4.
    + destruct (is_empty text); discriminate.
    + intros [= ->]. now apply (raises_response_text w prompt response).
  - intros [e0 H1|e0 H1 H2|e0 H1 H2 H3|response e0 H1 H2 H3 H4].
    + now rewrite H1.
    + now rewrite H1, H2.
    + now rewrite H1, H2, H3.
    + now rewrite H1, H2, H3, H4.
Qed.

(** The error answer ends with the text of the exception. *)
Lemma error_answer_text e : rag_query.error_answer e = error_prefix ++ exn_str e.
Proof.
  unfold rag_query.error_answer. rewrite !app_assoc. f_equal.
Qed.

Lemma retrieval_raises_no_hits w st query k e :
  retrieval_raises w st query k e →
  result (rag_query.query_top_k_tickets w query k st) = Ok [].
Proof.
  intros Hraise. rewrite query_top_k_tickets_run.
  destruct (is_empty query || is_empty (strip query)); [reflexivity|]. cbv zeta.
  destruct Hraise as [e Hinit|name c e Hinit Hc Hq].
  - now rewrite Hinit.
  - now rewrite Hinit, Hc, Hq.
Qed.

(** C1, as stated, fails for an exception of the retrieve stage: when the
    client of the index cannot be opened, [create_or_get_chroma_collection]
    raises "Failed to initialize ChromaDB collection: disk failure", this is
    caught inside [query_top_k_tickets], and [resolve_query] returns the
    fixed answer for no relevant ticket, which is not the error answer and
    holds no description of the exception. *)
Lemma retrieval_error_is_swallowed :
  result (chroma_index.create_or_get_chroma_collection
            (faulty_world three_tickets at_open_client disk_failure) fresh)
  = Raise (init_error disk_failure)
  ∧ result (rag_query.resolve_query
              (faulty_world three_tickets at_open_client disk_failure) sample_query 5 fresh)
    = Ok rag_query.no_tickets_answer
  ∧ has_infix (lit "disk failure") rag_query.no_tickets_answer = false
  ∧ has_prefix error_prefix rag_query.no_tickets_answer = false.
Proof. repeat split; vm_compute; reflexivity. Qed.

(** C1, amended: [resolve_query(query, k)] never raises, it always returns a
    string.  An exception raised while the index is opened, populated or
    queried is caught inside [query_top_k_tickets] and gives the fixed
    answer for no relevant ticket; an exception raised in the generate
    stage (the construction of the model or of its configuration, the
    generation, the reading of the response text) is caught at the top
    level and gives the fixed error text followed by the description of
    the exception. *)
Theorem resolve_query_never_raises w query k st :
  (∃ answer, result (rag_query.resolve_query w query k st) = Ok answer)
  ∧ (∃ hits,
       result (rag_query.query_top_k_tickets w query k st) = Ok hits
       ∧ (hits = [] →
          result (rag_query.resolve_query w query k st) = Ok rag_query.no_tickets_answer)
       ∧ (∀ e, hits ≠ [] →
               rag_query.no_api_key w = false →
               generation_raises w (rag_query.build_rag_prompt query hits) e →
               result (rag_query.resolve_query w query k st)
               = Ok (error_prefix ++ exn_str e)))
  ∧ (∀ e, retrieval_raises w st query k e →
          result (rag_query.resolve_query w query k st) = Ok rag_query.no_tickets_answer).
Proof.
  rewrite resolve_query_result, resolve_query_try_result.
  split; [eexists; reflexivity|]. split.
  - destruct (query_top_k_never_raises w query k st) as [hits Hhits].
    exists hits. rewrite Hhits. repeat split.
    + now intros ->.
    + intros e Hne Hkey Hraise. destruct hits; [contradiction|].
      cbn [is_empty]. rewrite Hkey. apply generation_raises_iff in Hraise.
      now rewrite Hraise, error_answer_text.
  - intros e Hraise. now rewrite (retrieval_raises_no_hits w st query k e Hraise).
Qed.

Lemma resolve_query_never_raises_witness :
  result (rag_query.resolve_query
            (faulty_world three_tickets at_new_chat_model quota_exceeded) sample_query 5 fresh)
  = Ok (error_prefix ++ lit "quota exceeded").
Proof.
  destruct (resolve_query_never_raises
              (faulty_world three_tickets at_new_chat_model quota_exceeded)
              sample_query 5 fresh) as (_ & (hits & Hhits & _ & Herror) & _).
  apply (Herror quota_exceeded).
  - intros ->. vm_compute in Hhits. discriminate Hhits.
  - reflexivity.
  - apply raises_new_model. reflexivity.
Defined.

(** ** Facts about the prompt *)














(** ** The prompt: claim C7 *)


